(** * Solar Suitability dashboard ([app.py]): a shallow embedding

    The script is one top-to-bottom run: locate the shapefile, load it,
    build the selection controls, filter the table, draw the legend and
    the map, and print the details of a selected district.  Each piece
    below carries the name it has in [app.py] and is followed, further
    down, by the properties the specification states about it. *)

From Stdlib Require Import QArith Qcanon.
From stdpp Require Import gmap strings list sorting numbers pretty.

(** ** Python built-ins used by the script *)

Module Py.

(** [needle in hay] on [str]: some suffix of [hay] starts with [needle]. *)
Fixpoint contains (needle hay : string) : bool :=
  String.prefix needle hay ||
  match hay with
  | EmptyString => false
  | String _ hay' => contains needle hay'
  end.

(** [s.endswith(suffix)]: [suffix] is [s] itself or ends the rest of [s]. *)
Fixpoint endswith (s suffix : string) : bool :=
  bool_decide (s = suffix) ||
  match s with
  | EmptyString => false
  | String _ s' => endswith s' suffix
  end.

(** [sorted(l)] on a list of [str]: ascending in the order of [str],
    which compares code points; on the UTF-8 bytes a [string] holds this
    is the byte-wise lexicographic order [String.le]. *)
Definition sorted (l : list string) : list string :=
  merge_sort String.le l.

(** [repr(s)] of a [str] that holds no quote, backslash or control
    character, as a column name does. *)
Definition repr (s : string) : string := "'" +:+ s +:+ "'".

(** [str(t)] of a tuple of [str]: the one-element tuple keeps its comma. *)
Definition tuple_str (t : list string) : string :=
  match t with
  | [s] => "(" +:+ repr s +:+ ",)"
  | _ => "(" +:+ String.concat ", " (repr <$> t) +:+ ")"
  end.

(** The text occurs somewhere inside: the mathematical reading of [in]. *)
Definition substring_of (needle hay : string) : Prop :=
  ∃ pre post, hay = pre +:+ needle +:+ post.

(** The text ends with the suffix. *)
Definition suffix_of (suffix s : string) : Prop :=
  ∃ pre, s = pre +:+ suffix.

End Py.

(** ** Cells of the attribute table

    The attribute columns the script reads ([NAME_1], [NAME_2] and the four
    category columns) are text fields of the shapefile.  Once loaded, a cell
    of such a column is a [str], or is missing: [None], or the float [nan]
    that pandas uses for a missing entry. *)

Inductive value : Type :=
  | VNone
  | VNaN
  | VStr (s : string).

Global Instance value_eq_dec : EqDecision value.
Proof. solve_decision. Defined.

(** [str(v)]. *)
Definition str (v : value) : string :=
  match v with
  | VNone => "None"
  | VNaN => "nan"
  | VStr s => s
  end.

(** The test the script applies wherever it reads a cell:
    [v is not None and str(v) != "nan"]. *)
Definition not_missing (v : value) : bool :=
  bool_decide (v ≠ VNone) && bool_decide (str v ≠ "nan").

(** ** Colours *)

(** Lines 154-159: the colour of a legend entry. *)
Definition legend_color (value : value) : string :=
  if Py.contains "Highly Suitable" (str value) then "#4dff4d"
  else if Py.contains "Moderately Suitable" (str value) then "#ffeb3b"
  else "#808080".

(** The dictionary [style_function] returns. *)
Record style : Type := Style {
  fillColor : string;
  color : string;
  weight : Z;
  fillOpacity : Qc
}.

Definition opacity_0_7 : Qc := (Qc_of_Z 7 / Qc_of_Z 10)%Qc.

(** Lines 194-206.  [properties] is [feature['properties']], a dictionary
    from column names to values. *)
Definition style_function (selected_category : string)
    (properties : gmap string value) : style :=
  match properties !! selected_category with
  | Some v =>
      if bool_decide (v ≠ VNone) then
        let category_value := str v in
        if Py.contains "Highly Suitable" category_value then
          Style "#4dff4d" "black" 1 opacity_0_7
        else if Py.contains "Moderately Suitable" category_value then
          Style "#ffeb3b" "black" 1 opacity_0_7
        else
          Style "#808080" "black" 1 opacity_0_7
      else Style "#808080" "black" 1 opacity_0_7
  | None => Style "#808080" "black" 1 opacity_0_7
  end.

(** ** [os.path] (POSIX flavour) *)

Module OsPath.

Definition sep : Ascii.ascii := Ascii.ascii_of_nat 47.

Fixpoint has_sep (p : string) : bool :=
  match p with
  | EmptyString => false
  | String c p' => bool_decide (c = sep) || has_sep p'
  end.

(** [p[:p.rfind('/') + 1]]: [p] up to and including its last separator. *)
Fixpoint head_part (p : string) : string :=
  match p with
  | EmptyString => EmptyString
  | String c p' => if has_sep p then String c (head_part p') else EmptyString
  end.

(** [head == '/' * len(head)]. *)
Fixpoint all_sep (head : string) : bool :=
  match head with
  | EmptyString => true
  | String c head' => bool_decide (c = sep) && all_sep head'
  end.

(** [head.rstrip('/')]. *)
Fixpoint rstrip_sep (head : string) : string :=
  match head with
  | EmptyString => EmptyString
  | String c head' =>
      let r := rstrip_sep head' in
      if bool_decide (c = sep) && bool_decide (r = EmptyString)
      then EmptyString else String c r
  end.

(** [os.path.dirname(p)]. *)
Definition dirname (p : string) : string :=
  let head := head_part p in
  if bool_decide (head ≠ "") && negb (all_sep head)
  then rstrip_sep head else head.

(** [os.path.join(a, b)]. *)
Definition join (a b : string) : string :=
  if String.prefix "/" b then b
  else if bool_decide (a = "") || Py.endswith a "/" then a +:+ b
  else a +:+ "/" +:+ b.

End OsPath.

(** ** Exceptions and results *)

Inductive exn : Type :=
  | KeyError (key : string)
  | IndexError (msg : string)
  | ValueError (msg : string)
  | AssertionError (msg : string)
  | Exception (msg : string).

(** [str(e)]. *)
Definition exn_str (e : exn) : string :=
  match e with
  | KeyError key => "'" +:+ key +:+ "'"
  | IndexError msg => msg
  | ValueError msg => msg
  | AssertionError msg => msg
  | Exception msg => msg
  end.

Inductive result (A : Type) : Type :=
  | Ok (a : A)
  | Raise (e : exn).
Global Arguments Ok {A} a.
Global Arguments Raise {A} e.

Global Instance result_ret : MRet result := λ A a, Ok a.
Global Instance result_bind : MBind result := λ A B f m,
  match m with
  | Ok a => f a
  | Raise e => Raise e
  end.

(** [try: body / except: handler]. *)
Definition try_except {A} (body : result A) (handler : exn → result A) : result A :=
  match body with
  | Ok a => Ok a
  | Raise e => handler e
  end.

(** ** Floating-point numbers, as far as the script looks at them

    The script only compares floats with the integers 3 and 1; the
    arithmetic that produces them is the libraries'.  A float is a number,
    an infinity or [nan]; every comparison with [nan] is false. *)

Inductive float : Type :=
  | FNaN
  | FNegInf
  | FPosInf
  | FNum (q : Qc).

(** [a > b]. *)
Definition float_gt (a b : float) : bool :=
  match a, b with
  | FNaN, _ | _, FNaN => false
  | FPosInf, FPosInf => false
  | FPosInf, _ => true
  | _, FPosInf => false
  | FNegInf, _ => false
  | FNum _, FNegInf => true
  | FNum x, FNum y => bool_decide (y < x)%Qc
  end.

(** [a < b]. *)
Definition float_lt (a b : float) : bool := float_gt b a.

Definition float_of_Z (n : Z) : float := FNum (Qc_of_Z n).

(** [math.isnan(x)]. *)
Definition isnan (x : float) : bool :=
  match x with
  | FNaN => true
  | _ => false
  end.


(** ** What the libraries compute

    The geometry column is handled by geopandas and shapely, the mean by
    pandas, the subtraction by the float unit.  The script only calls them;
    here they are the operations of an interface.  [centroid] and
    [total_bounds] may raise. *)

Class GeoLib (geometry : Type) : Type := {
  (** [GeoSeries.centroid]: the [(x, y)] of the centroid of each geometry. *)
  centroid : list geometry → result (list (float * float));
  (** [Series.mean()]. *)
  series_mean : list float → float;
  (** [GeoSeries.total_bounds]: [(minx, miny, maxx, maxy)]. *)
  total_bounds : list geometry → result (float * float * float * float);
  (** [a - b] on floats. *)
  float_sub : float → float → float
}.

(** [pandas.unique]: the distinct values, in the order they are first seen. *)
Fixpoint unique {A} `{EqDecision A} (l : list A) : list A :=
  match l with
  | [] => []
  | x :: l' => x :: filter (λ y, y ≠ x) (unique l')
  end.

(** [d[key]] on a dictionary kept in insertion order. *)
Fixpoint dict_get (d : list (string * string)) (key : string) : result string :=
  match d with
  | [] => Raise (KeyError key)
  | (k, v) :: d' => if decide (k = key) then Ok v else dict_get d' key
  end.

(** Lines 91-96. *)
Definition categories : list (string * string) :=
  [ ("Adaptation", "Adaptation");
    ("Mitigation", "Mitigation");
    ("Replacment", "Replacement");
    ("General_SI", "General SI") ].

(** Lines 110, 126 and 128: [[str(s) for s in col.unique()
    if s is not None and str(s) != "nan"]]. *)
Definition valid_names (col : list value) : list string :=
  str <$> filter (λ v, not_missing v) (unique col).

(** Line 179. *)
Definition default_center : float * float :=
  (FNum (Qc_of_Z 205937 / Qc_of_Z 10000)%Qc,
   FNum (Qc_of_Z 789629 / Qc_of_Z 10000)%Qc).

(** Lines 185-189, on the two differences of lines 183-184. *)
Definition zoom_level (lat_diff lon_diff : float) : Z :=
  if float_gt lat_diff (float_of_Z 3) || float_gt lon_diff (float_of_Z 3) then 6
  else if float_lt lat_diff (float_of_Z 1) || float_lt lon_diff (float_of_Z 1) then 9
  else 7.

(** Line 162: the HTML of one legend entry. *)
Definition legend_html (color : string) (value : value) : string :=
  "<div style='display: flex; align-items: center; margin-bottom: 5px;'><div style='width: 15px; height: 15px; background-color: "
  +:+ color +:+ "; margin-right: 10px;'></div><div>" +:+ str value +:+ "</div></div>".

Section app.
Context {geometry : Type} `{!GeoLib geometry}.

(** *** The table *)

(** One record: its geometry and its attribute cells. *)
Record Row : Type := {
  geom : geometry;
  cells : gmap string value
}.

(** The loaded table: the names of its attribute columns and its records. *)
Record GeoDataFrame : Type := {
  columns : list string;
  rows : list Row
}.

(** The cell of a record in a column; a record without an entry for the
    column holds a missing value there. *)
Definition cell (c : string) (r : Row) : value :=
  default VNone (cells r !! c).

(** [gdf[c]]: the column as a series; [KeyError] when there is none. *)
Definition column (gdf : GeoDataFrame) (c : string) : result (list value) :=
  if decide (c ∈ columns gdf) then Ok (cell c <$> rows gdf)
  else Raise (KeyError c).

(** [gdf[gdf[c] == s]] for a [str] [s]: the records whose cell in [c] is
    that string; the columns stay. *)
Definition select_eq (gdf : GeoDataFrame) (c s : string) : result GeoDataFrame :=
  _ ← column gdf c;
  mret {| columns := columns gdf;
          rows := filter (λ r, cell c r = VStr s) (rows gdf) |}.

(** [gdf.empty]; the geometry column is always there, so the table is
    empty when it has no record. *)
Definition empty (gdf : GeoDataFrame) : bool :=
  bool_decide (rows gdf = []).

(** [gdf.iloc[0]]. *)
Definition iloc0 (gdf : GeoDataFrame) : result Row :=
  match rows gdf with
  | r :: _ => Ok r
  | [] => Raise (IndexError "single positional indexer is out-of-bounds")
  end.

(** *** The file system and the loader *)

Record Env : Type := {
  (** [os.getcwd()] *)
  getcwd : string;
  (** [os.path.exists(p)] *)
  path_exists : string → bool;
  (** [os.listdir('.')] *)
  listdir : list string;
  (** [gpd.read_file(p)] *)
  read_file : string → result GeoDataFrame
}.

(** Lines 75-77: the first entry of the listing that ends in [.shp]. *)
Fixpoint first_shp (files : list string) : option string :=
  match files with
  | [] => None
  | file :: files' =>
      if Py.endswith file ".shp" then Some file else first_shp files'
  end.

(** Lines 63-80. *)
Definition find_shapefile (env : Env) (base_name : string) : string :=
  if path_exists env (base_name +:+ ".shp") then base_name +:+ ".shp"
  else
    let parent_dir := OsPath.dirname (getcwd env) in
    if path_exists env (OsPath.join parent_dir (base_name +:+ ".shp"))
    then OsPath.join parent_dir (base_name +:+ ".shp")
    else
      match first_shp (listdir env) with
      | Some file => file
      | None => base_name +:+ ".shp"
      end.

(** *** The selection controls *)

(** Lines 108-111. *)
Definition states (gdf : GeoDataFrame) : result (list string) :=
  if decide ("NAME_1" ∈ columns gdf) then
    col ← column gdf "NAME_1";
    mret ("All States" :: Py.sorted (valid_names col))
  else mret ["All States"].

(** Lines 116-119. *)
Definition filter_by_state (gdf : GeoDataFrame) (selected_state : string)
    : result GeoDataFrame :=
  if decide (selected_state ≠ "All States")
  then select_eq gdf "NAME_1" selected_state
  else mret gdf.

(** Lines 123-129; [filtered_gdf] is the table after lines 116-119. *)
Definition districts (gdf filtered_gdf : GeoDataFrame) (selected_state : string)
    : result (list string) :=
  if decide ("NAME_2" ∈ columns gdf) then
    valid_districts ←
      (if decide (selected_state ≠ "All States")
       then col ← column filtered_gdf "NAME_2"; mret (valid_names col)
       else col ← column gdf "NAME_2"; mret (valid_names col));
    mret ("All Districts" :: Py.sorted valid_districts)
  else mret ["All Districts"].

(** Lines 134-135. *)
Definition filter_by_district (filtered_gdf : GeoDataFrame)
    (selected_district : string) : result GeoDataFrame :=
  if decide (selected_district ≠ "All Districts")
  then select_eq filtered_gdf "NAME_2" selected_district
  else mret filtered_gdf.

(** The region filter as a whole: lines 116-119, then lines 134-135. *)
Definition region_filter (gdf : GeoDataFrame)
    (selected_state selected_district : string) : result GeoDataFrame :=
  filtered_gdf ← filter_by_state gdf selected_state;
  filter_by_district filtered_gdf selected_district.

(** Lines 116-129 in sequence: the district options offered once the
    state is selected. *)
Definition offered_districts (gdf : GeoDataFrame) (selected_state : string)
    : result (list string) :=
  filtered_gdf ← filter_by_state gdf selected_state;
  districts gdf filtered_gdf selected_state.

(** *** The page

    A run writes widgets to the page one after the other; an exception
    stops the run, and what was written stays. *)

(** A GeoJSON feature, as [folium.GeoJson] hands it to [style_function]. *)
Record Feature : Type := {
  feature_geometry : geometry;
  properties : gmap string value
}.

(** The map given to [folium_static]: [folium.Map] with its GeoJson layer,
    each feature with the style [style_function] returns for it, and the
    tooltip. *)
Record FoliumMap : Type := {
  location : float * float;
  zoom_start : Z;
  tiles : string;
  geojson : list (Feature * style);
  tooltip_fields : list string;
  tooltip_aliases : list string
}.

Inductive widget : Type :=
  | st_success (body : string)
  | st_header (body : string)
  | st_subheader (body : string)
  | st_selectbox (shown : list string)
  | st_markdown (body : string)
  | folium_static (m : FoliumMap) (width height : Z)
  | st_write (body : string)
  | st_write_list (body : list string)
  | st_warning (body : string)
  | st_error (body : string).

(** A step of the run: the widgets it wrote and how it ended. *)
Record ui (A : Type) : Type := Ui {
  page : list widget;
  outcome : result A
}.
Global Arguments Ui {A} page outcome.
Global Arguments page {A} _.
Global Arguments outcome {A} _.

Global Instance ui_ret : MRet ui := λ A a, Ui [] (Ok a).
Global Instance ui_bind : MBind ui := λ A B f m,
  match outcome m with
  | Ok a => let k := f a in Ui (page m ++ page k) (outcome k)
  | Raise e => Ui (page m) (Raise e)
  end.

Definition emit (w : widget) : ui unit := Ui [w] (Ok tt).

Definition lift {A} (r : result A) : ui A := Ui [] r.

(** [try: body / except Exception as e: handler]. *)
Definition ui_try {A} (body : ui A) (handler : exn → ui A) : ui A :=
  match outcome body with
  | Ok _ => body
  | Raise e => let h := handler e in Ui (page body ++ page h) (outcome h)
  end.

(** [for x in l: body]. *)
Fixpoint ui_for {A} (l : list A) (body : A → ui unit) : ui unit :=
  match l with
  | [] => mret tt
  | x :: l' => body x;; ui_for l' body
  end.

(** What the user picks in the three select boxes: the position of the
    option in each. *)
Record Choice : Type := {
  state_choice : nat;
  district_choice : nat;
  category_choice : nat
}.

(** [st.selectbox("", options, format_func=fmt)]: shows the options and
    returns the one picked, the first one when nothing (valid) is
    picked. *)
Definition selectbox (options : list string) (fmt : string → string)
    (pick : nat) : ui string :=
  emit (st_selectbox (fmt <$> options));;
  mret (nth pick options (hd "" options)).

(** Lines 150-164. *)
Definition legend (filtered_gdf : GeoDataFrame) (selected_category : string)
    : ui unit :=
  if decide (selected_category ∈ columns filtered_gdf) then
    col ← lift (column filtered_gdf selected_category);
    let unique_values := filter (λ v, not_missing v) (unique col) in
    ui_for unique_values (λ value,
      let color := legend_color value in
      emit (st_markdown (legend_html color value)))
  else mret tt.

(** Lines 103-164: the controls column.  It hands the filtered table and
    the selections on to the map column. *)
Definition controls (gdf : GeoDataFrame) (choice : Choice)
    : ui (GeoDataFrame * string * string) :=
  emit (st_header "Selection Controls");;
  emit (st_subheader "Select State:");;
  state_options ← lift (states gdf);
  selected_state ← selectbox state_options id (state_choice choice);
  filtered_gdf ← lift (filter_by_state gdf selected_state);
  emit (st_subheader "Select District:");;
  district_options ← lift (districts gdf filtered_gdf selected_state);
  selected_district ← selectbox district_options id (district_choice choice);
  filtered_gdf ← lift (filter_by_district filtered_gdf selected_district);
  emit (st_subheader "Select Category:");;
  selected_category ←
    selectbox categories.*1
      (λ x, match dict_get categories x with Ok d => d | Raise _ => x end)
      (category_choice choice);
  emit (st_header "Legend");;
  legend filtered_gdf selected_category;;
  mret (filtered_gdf, selected_district, selected_category).

(** Lines 173-179. *)
Definition center (filtered_gdf : GeoDataFrame) : result (float * float) :=
  try_except
    (cs ← centroid (geom <$> rows filtered_gdf);
     let center_y := series_mean (snd <$> cs) in
     cs' ← centroid (geom <$> rows filtered_gdf);
     let center_x := series_mean (fst <$> cs') in
     mret (center_y, center_x))
    (λ _, mret default_center).

(** Lines 182-189. *)
Definition zoom (filtered_gdf : GeoDataFrame) : result Z :=
  bounds ← total_bounds (geom <$> rows filtered_gdf);
  let '(minx, miny, maxx, maxy) := bounds in
  let lat_diff := float_sub maxy miny in
  let lon_diff := float_sub maxx minx in
  mret (zoom_level lat_diff lon_diff).

(** A cell as a JSON value: pandas' missing values ([None], [nan]) become
    [null], which Python reads back as [None]. *)
Definition json_value (v : value) : value :=
  match v with
  | VNaN => VNone
  | _ => v
  end.

(** The features [folium.GeoJson] makes of the table: one per record, its
    properties the cells of all columns. *)
Definition to_feature (cols : list string) (r : Row) : Feature :=
  {| feature_geometry := geom r;
     properties := list_to_map ((λ c, (c, json_value (cell c r))) <$> cols) |}.

(** Lines 223-232. *)
Definition district_details (filtered_gdf : GeoDataFrame)
    (selected_district : string) : ui unit :=
  if decide (selected_district ≠ "All Districts") then
    emit (st_subheader ("Details for " +:+ selected_district));;
    district_data ← lift (iloc0 filtered_gdf);
    ui_for categories (λ '(category, display_name),
      if decide (category ∈ columns filtered_gdf) then
        let value := cell category district_data in
        if not_missing value
        then emit (st_write ("**" +:+ display_name +:+ ":** " +:+ str value))
        else mret tt
      else mret tt)
  else mret tt.

(** The widgets the loop of lines 228-232 writes for the record [r], as one
    list. *)
Definition detail_lines (filtered_gdf : GeoDataFrame) (r : Row) : list widget :=
  categories ≫= λ '(category, display_name),
    if decide (category ∈ columns filtered_gdf) then
      if not_missing (cell category r)
      then [st_write ("**" +:+ display_name +:+ ":** " +:+ str (cell category r))]
      else []
    else [].

(** Line 191: [folium.Map] validates its [location] and raises
    [ValueError] on a coordinate that is [nan]. *)
Definition folium_Map (location : float * float) : result unit :=
  if isnan location.1 || isnan location.2
  then Raise (ValueError "Location values cannot contain NaNs.")
  else Ok tt.

(** Line 220: rendering the map renders the tooltip of lines 212-216,
    which asserts that each of its fields is a property of the first
    feature.  The properties are the columns of the table; folium leaves
    its own two keys out of the list it reports. *)
Fixpoint tooltip_render (keys fields : list string) : result unit :=
  match fields with
  | [] => Ok tt
  | value :: fields' =>
      if decide (value ∈ keys) then tooltip_render keys fields'
      else Raise (AssertionError
                    ("The field " +:+ value
                     +:+ " is not available in the data. Choose from: "
                     +:+ Py.tuple_str keys +:+ "."))
  end.

Definition tooltip_keys (filtered_gdf : GeoDataFrame) : list string :=
  filter (λ x, x ∉ ["style"; "highlight"]) (columns filtered_gdf).

(** Lines 167-234: the map column. *)
Definition map_column (filtered_gdf : GeoDataFrame)
    (selected_district selected_category : string) : ui unit :=
  emit (st_header "Solar Suitability Map");;
  if negb (empty filtered_gdf) then
    center ← lift (center filtered_gdf);
    zoom_level ← lift (zoom filtered_gdf);
    lift (folium_Map center);;
    display_name ← lift (dict_get categories selected_category);
    let has_name_2 := bool_decide ("NAME_2" ∈ columns filtered_gdf) in
    let m :=
      {| location := center;
         zoom_start := zoom_level;
         tiles := "CartoDB positron";
         geojson :=
           (λ r, let feature := to_feature (columns filtered_gdf) r in
                 (feature, style_function selected_category (properties feature)))
           <$> rows filtered_gdf;
         tooltip_fields :=
           if has_name_2 then ["NAME_2"; selected_category]
           else ["OBJECTID"; selected_category];
         tooltip_aliases :=
           if has_name_2 then ["District"; display_name]
           else ["ID"; display_name] |} in
    lift (tooltip_render (tooltip_keys filtered_gdf) (tooltip_fields m));;
    emit (folium_static m 800 600);;
    district_details filtered_gdf selected_district
  else
    emit (st_warning "No data available for the selected filters.").

(** Lines 236-262: what the top-level handler writes. *)
Definition troubleshooting (env : Env) (e : exn) : ui unit :=
  emit (st_error ("Error: " +:+ exn_str e));;
  emit (st_subheader "Troubleshooting Information");;
  emit (st_write ("Current working directory: " +:+ getcwd env));;
  emit (st_write "Files in current directory:");;
  emit (st_write_list (listdir env));;
  let components := [".shp"; ".dbf"; ".shx"; ".prj"] in
  let name comp := "Solar_Suitability_layer" +:+ comp in
  let found_components :=
    name <$> filter (λ comp, path_exists env (name comp)) components in
  let missing_components :=
    name <$> filter (λ comp, ¬ path_exists env (name comp)) components in
  (if bool_decide (found_components ≠ []) then
     emit (st_write "Found shapefile components:");;
     emit (st_write_list found_components)
   else mret tt);;
  (if bool_decide (missing_components ≠ []) then
     emit (st_warning "Missing shapefile components:");;
     emit (st_write_list missing_components)
   else mret tt).

(** Lines 83-262: one run of the script, from locating the shapefile on.
    (The page set-up of lines 13-60 is fixed text and is left out.) *)
Definition script (env : Env) (choice : Choice) : ui unit :=
  let shapefile_path := find_shapefile env "Solar_Suitability_layer" in
  ui_try
    (gdf ← lift (read_file env shapefile_path);
     emit (st_success ("Successfully loaded shapefile with "
                       +:+ pretty (length (rows gdf)) +:+ " features"));;
     '(filtered_gdf, selected_district, selected_category) ← controls gdf choice;
     map_column filtered_gdf selected_district selected_category)
    (troubleshooting env).

End app.

Global Arguments Row geometry : clear implicits.
Global Arguments GeoDataFrame geometry : clear implicits.
Global Arguments Env geometry : clear implicits.
Global Arguments Feature geometry : clear implicits.
Global Arguments FoliumMap geometry : clear implicits.
Global Arguments widget geometry : clear implicits.
Global Arguments ui geometry A : clear implicits.

(** ** A small geometry library to run the script on

    Boxes with rational corners and exact arithmetic: enough to evaluate
    the script on examples.  One variant fails in [total_bounds]; another
    takes geometries that may be null. *)

Module Sample.

Record box : Type := Box {
  minx : Qc;
  miny : Qc;
  maxx : Qc;
  maxy : Qc
}.

Definition box_centroid (b : box) : float * float :=
  (FNum ((minx b + maxx b) / Qc_of_Z 2)%Qc,
   FNum ((miny b + maxy b) / Qc_of_Z 2)%Qc).

Definition number (x : float) : option Qc :=
  match x with
  | FNum q => Some q
  | _ => None
  end.

(** The mean of the numbers of the list; [nan] when there is none. *)
Definition mean (l : list float) : float :=
  match omap number l with
  | [] => FNaN
  | q :: qs =>
      FNum (foldr Qcplus 0%Qc (q :: qs) / Qc_of_Z (Z.of_nat (length (q :: qs))))%Qc
  end.

Definition sub (a b : float) : float :=
  match a, b with
  | FNum x, FNum y => FNum (x - y)%Qc
  | _, _ => FNaN
  end.

Definition Qc_min (x y : Qc) : Qc := if decide (x ≤ y)%Qc then x else y.
Definition Qc_max (x y : Qc) : Qc := if decide (x ≤ y)%Qc then y else x.

Definition hull (a b : box) : box :=
  Box (Qc_min (minx a) (minx b)) (Qc_min (miny a) (miny b))
      (Qc_max (maxx a) (maxx b)) (Qc_max (maxy a) (maxy b)).

Definition bounds (l : list box) : float * float * float * float :=
  match l with
  | [] => (FNaN, FNaN, FNaN, FNaN)
  | b :: l' =>
      let h := foldr hull b l' in
      (FNum (minx h), FNum (miny h), FNum (maxx h), FNum (maxy h))
  end.

Definition exact : GeoLib box := {|
  centroid l := Ok (box_centroid <$> l);
  series_mean := mean;
  total_bounds l := Ok (bounds l);
  float_sub := sub
|}.

Definition no_bounds : GeoLib box := {|
  centroid l := Ok (box_centroid <$> l);
  series_mean := mean;
  total_bounds _ := Raise (Exception "bounds failed");
  float_sub := sub
|}.

(** The same library on geometries that may be null, as a shapefile can
    hold them: the centroid of a null geometry has [nan] coordinates, and
    a null geometry does not count in the bounds. *)
Definition nullable : GeoLib (option box) := {|
  centroid l := Ok (from_option box_centroid (FNaN, FNaN) <$> l);
  series_mean := mean;
  total_bounds l := Ok (bounds (omap id l));
  float_sub := sub
|}.

Definition record (b : box) (attrs : list (string * value)) : Row box :=
  {| geom := b; cells := list_to_map attrs |}.

Definition q (n d : Z) : Qc := (Qc_of_Z n / Qc_of_Z d)%Qc.

(** The record of the specification's scenario: Pune in Maharashtra, highly
    suitable for adaptation, the other three categories missing. *)
Definition pune : Row box :=
  record (Box (q 733 10) (q 18 1) (q 751 10) (q 193 10))
    [ ("NAME_1", VStr "Maharashtra"); ("NAME_2", VStr "Pune");
      ("Adaptation", VStr "Highly Suitable (3)"); ("Mitigation", VNone);
      ("Replacment", VNaN); ("General_SI", VNone) ].

Definition all_columns : list string :=
  ["NAME_1"; "NAME_2"; "Adaptation"; "Mitigation"; "Replacment"; "General_SI"].

Definition pune_gdf : GeoDataFrame box :=
  {| columns := all_columns; rows := [pune] |}.

(** A table with two states and a record without names. *)
Definition three_gdf : GeoDataFrame box :=
  {| columns := all_columns;
     rows :=
       [ pune;
         record (Box (q 73 1) (q 15 1) (q 74 1) (q 16 1))
           [ ("NAME_1", VStr "Goa"); ("NAME_2", VStr "North Goa");
             ("Adaptation", VStr "Not Suitable (1)") ];
         record (Box (q 74 1) (q 15 1) (q 75 1) (q 16 1))
           [ ("NAME_1", VNaN); ("NAME_2", VNone) ];
         record (Box (q 74 1) (q 18 1) (q 75 1) (q 19 1))
           [ ("NAME_1", VStr "Maharashtra"); ("NAME_2", VStr "Ahmednagar");
             ("Adaptation", VStr "Highly Suitable (3)") ] ] |}.

(** A district whose name is the text [nan]. *)
Definition nan_gdf : GeoDataFrame box :=
  {| columns := all_columns;
     rows :=
       [ record (Box (q 73 1) (q 15 1) (q 74 1) (q 16 1))
           [ ("NAME_1", VStr "Goa"); ("NAME_2", VStr "nan");
             ("Adaptation", VStr "Not Suitable (1)") ] ] |}.

(** A record whose adaptation label is the text [nan]. *)
Definition nan_label_gdf : GeoDataFrame box :=
  {| columns := all_columns;
     rows :=
       [ record (Box (q 733 10) (q 18 1) (q 751 10) (q 193 10))
           [ ("NAME_1", VStr "Maharashtra"); ("NAME_2", VStr "Pune");
             ("Adaptation", VStr "nan");
             ("Mitigation", VStr "Highly Suitable (3)") ] ] |}.


(** A table whose only record has a null geometry. *)
Definition null_gdf : GeoDataFrame (option box) :=
  {| columns := all_columns;
     rows :=
       [ {| geom := None;
            cells := list_to_map
              [ ("NAME_1", VStr "Goa"); ("NAME_2", VStr "North Goa");
                ("Adaptation", VStr "Highly Suitable (3)") ] |} ] |}.

Definition env (files : list string) (listing : list string)
    (gdf : GeoDataFrame box) : Env box :=
  {| getcwd := "/srv/app";
     path_exists p := bool_decide (p ∈ files);
     listdir := listing;
     read_file _ := Ok gdf |}.

(** A directory without the shapefile: the loader raises. *)
Definition no_file_env : Env box :=
  {| getcwd := "/srv/app";
     path_exists _ := false;
     listdir := ["app.py"];
     read_file p := Raise (Exception (p +:+ ": No such file or directory")) |}.

(** The shapefile is in the working directory and loads as [gdf]. *)
Definition env_of {geometry} (gdf : GeoDataFrame geometry) : Env geometry :=
  {| getcwd := "/srv/app";
     path_exists p := bool_decide (p = "Solar_Suitability_layer.shp");
     listdir := ["Solar_Suitability_layer.shp"; "app.py"];
     read_file _ := Ok gdf |}.

End Sample.

(** ** The vocabulary of the specification

    The properties below compare the script with the specification.  These
    definitions follow the specification's wording, not the code. *)

Module Spec.

(** The classification of a label text, as the specification words it:
    "Highly Suitable" gives the affirmative colour, otherwise "Moderately
    Suitable" the caution colour, anything else the neutral colour. *)
Definition color_rule (label c : string) : Prop :=
  (Py.substring_of "Highly Suitable" label ∧ c = "#4dff4d") ∨
  (¬ Py.substring_of "Highly Suitable" label ∧
   Py.substring_of "Moderately Suitable" label ∧ c = "#ffeb3b") ∨
  (¬ Py.substring_of "Highly Suitable" label ∧
   ¬ Py.substring_of "Moderately Suitable" label ∧ c = "#808080").

(** A float exceeds, or is below, an integer threshold. *)
Definition exceeds (x : float) (n : Z) : Prop :=
  match x with
  | FPosInf => True
  | FNum v => (Qc_of_Z n < v)%Qc
  | _ => False
  end.

Definition below (x : float) (n : Z) : Prop :=
  match x with
  | FNegInf => True
  | FNum v => (v < Qc_of_Z n)%Qc
  | _ => False
  end.

Section records.
Context {geometry : Type}.

(** The record passes the state selection: nothing is asked under
    "All States", otherwise its state name is the selected one. *)
Definition state_matches (selected_state : string) (r : Row geometry) : Prop :=
  selected_state = "All States" ∨ cell "NAME_1" r = VStr selected_state.

(** The record passes the district selection. *)
Definition district_matches (selected_district : string) (r : Row geometry)
    : Prop :=
  selected_district = "All Districts" ∨ cell "NAME_2" r = VStr selected_district.

Global Instance state_matches_dec s r : Decision (state_matches s r).
Proof. unfold state_matches. apply _. Defined.

Global Instance district_matches_dec d r : Decision (district_matches d r).
Proof. unfold district_matches. apply _. Defined.

(** The offered district list: "All Districts", then the sorted,
    de-duplicated district names of the records in [scope].  A district
    name is the text a record holds in the column [NAME_2]; [counts]
    says which texts count as a name. *)
Definition district_list (gdf : GeoDataFrame geometry)
    (scope : Row geometry → Prop) (counts : string → Prop)
    (offered : list string) : Prop :=
  ∃ names,
    offered = "All Districts" :: names ∧
    StronglySorted String.le names ∧
    NoDup names ∧
    ∀ d, d ∈ names ↔
         "NAME_2" ∈ columns gdf ∧ counts d ∧
         ∃ r, r ∈ rows gdf ∧ scope r ∧ cell "NAME_2" r = VStr d.

(** The four category attributes and the labels they are shown under;
    the data spells the third one [Replacment]. *)
Definition display_names : list (string * string) :=
  [ ("Adaptation", "Adaptation");
    ("Mitigation", "Mitigation");
    ("Replacment", "Replacement");
    ("General_SI", "General SI") ].

(** The detail panel of a selected district: a heading, then for each
    category attribute that the first record of the subset has, its
    value under the display label.  [counts] says which texts count as
    a value. *)
Definition detail_panel (subset : GeoDataFrame geometry)
    (selected_district : string) (counts : string → Prop)
    (shown : list (widget geometry)) : Prop :=
  ∃ first rest lines,
    rows subset = first :: rest ∧
    shown = st_subheader ("Details for " +:+ selected_district) :: lines ∧
    ∀ w, w ∈ lines ↔
         ∃ category display_name text,
           (category, display_name) ∈ display_names ∧
           category ∈ columns subset ∧
           cell category first = VStr text ∧
           counts text ∧
           w = st_write ("**" +:+ display_name +:+ ":** " +:+ text).

End records.

End Spec.
(** ** Facts about the built-ins *)

Section py_facts.
Implicit Types s t needle hay : string.

Lemma string_app_cons a s t : String a s +:+ t = String a (s +:+ t).
Proof. reflexivity. Qed.

Lemma string_app_nil_r s : s +:+ "" = s.
Proof.
  induction s as [|a s IH]; [done|]. by rewrite string_app_cons, IH.
Qed.

Lemma string_app_assoc s t u : (s +:+ t) +:+ u = s +:+ (t +:+ u).
Proof.
  induction s as [|a s IH]; [done|]. by rewrite !string_app_cons, IH.
Qed.

Lemma prefix_spec needle hay :
  String.prefix needle hay = true ↔ ∃ post, hay = needle +:+ post.
Proof.
  revert hay. induction needle as [|a needle IH]; intros hay.
  - split; [intros _; by exists hay|]. by destruct hay.
  - destruct hay as [|b hay]; cbn.
    + split; [done|]. by intros [post ?].
    + destruct (Ascii.ascii_dec a b) as [->|Hne].
      * rewrite IH. split; intros [post Hp]; exists post.
        -- by rewrite Hp.
        -- by injection Hp.
      * split; [done|]. intros [post Hp]. injection Hp as -> _. done.
Qed.

Lemma contains_spec needle hay :
  Py.contains needle hay = true ↔ Py.substring_of needle hay.
Proof.
  unfold Py.substring_of.
  induction hay as [|b hay IH]; cbn [Py.contains].
  - rewrite orb_false_r, prefix_spec. split.
    + intros [post Hp]. by exists "", post.
    + intros (pre & post & Hp). destruct pre; [by exists post|done].
  - rewrite orb_true_iff, prefix_spec, IH. split.
    + intros [[post Hp]|(pre & post & Hp)].
      * by exists "", post.
      * exists (String b pre), post. by rewrite Hp.
    + intros (pre & post & Hp). destruct pre as [|c pre].
      * left. by exists post.
      * right. injection Hp as -> Hp. by exists pre, post.
Qed.

Lemma contains_false needle hay :
  Py.contains needle hay = false ↔ ¬ Py.substring_of needle hay.
Proof. rewrite <-contains_spec. by destruct (Py.contains needle hay). Qed.

End py_facts.


(** ** Colours (claim C1) *)

Section colours.
Implicit Types label cat : string.
Implicit Types props : gmap string value.

Lemma legend_color_rule label :
  Spec.color_rule label (legend_color (VStr label)).
Proof.
  unfold Spec.color_rule, legend_color; cbn [str].
  destruct (Py.contains "Highly Suitable" label) eqn:Hh.
  { left. split; [by apply contains_spec|done]. }
  apply contains_false in Hh.
  destruct (Py.contains "Moderately Suitable" label) eqn:Hm.
  { right; left. split_and!; [done|by apply contains_spec|done]. }
  apply contains_false in Hm. by right; right.
Qed.

Lemma style_function_legend_color cat props v :
  props !! cat = Some v → v ≠ VNone →
  fillColor (style_function cat props) = legend_color v.
Proof.
  intros Hl Hv. unfold style_function, legend_color. rewrite Hl.
  rewrite bool_decide_eq_true_2 by done.
  by repeat case_match.
Qed.

Lemma style_function_missing cat props :
  props !! cat = None ∨ props !! cat = Some VNone ∨ props !! cat = Some VNaN →
  style_function cat props = Style "#808080" "black" 1 opacity_0_7.
Proof.
  unfold style_function. by intros [->|[->| ->]].
Qed.

Lemma style_function_outline cat props :
  color (style_function cat props) = "black" ∧
  weight (style_function cat props) = 1%Z ∧
  fillOpacity (style_function cat props) = opacity_0_7.
Proof. unfold style_function. by repeat case_match. Qed.

(** C1.  The colour given to a label depends on its text alone.  In the
    legend and in the style of a feature alike, a label whose text contains
    "Highly Suitable" gets [#4dff4d]; otherwise one whose text contains
    "Moderately Suitable" gets [#ffeb3b]; any other label gets [#808080],
    and so does a feature whose label is missing (no such property, [None]
    or [nan]).  Two features, whatever their records and whatever the
    category, get the same fill colour when they carry the same label. *)
Theorem C1_color_is_function_of_label_text label :
  Spec.color_rule label (legend_color (VStr label)) ∧
  (∀ cat props,
     props !! cat = Some (VStr label) →
     Spec.color_rule label (fillColor (style_function cat props))) ∧
  (∀ cat props,
     props !! cat = None ∨ props !! cat = Some VNone ∨ props !! cat = Some VNaN →
     fillColor (style_function cat props) = "#808080") ∧
  (∀ cat1 props1 cat2 props2,
     props1 !! cat1 = props2 !! cat2 →
     fillColor (style_function cat1 props1)
     = fillColor (style_function cat2 props2)) ∧
  (∀ v1 v2, str v1 = str v2 → legend_color v1 = legend_color v2).
Proof.
  split_and!.
  - apply legend_color_rule.
  - intros cat props Hl.
    rewrite (style_function_legend_color _ _ _ Hl) by done.
    apply legend_color_rule.
  - intros cat props Hl. by rewrite style_function_missing.
  - intros cat1 props1 cat2 props2 Heq.
    unfold style_function. by rewrite Heq.
  - intros v1 v2 Heq. unfold legend_color. by rewrite Heq.
Qed.

End colours.

(** ** The features of the map layer (claim C10) *)

Section features.
Context {geometry : Type}.
Implicit Types gdf : GeoDataFrame geometry.
Implicit Types r : Row geometry.

Lemma properties_to_feature (cols : list string) r c :
  properties (to_feature cols r) !! c
  = if decide (c ∈ cols) then Some (json_value (cell c r)) else None.
Proof.
  cbn [to_feature properties]. induction cols as [|c' cols IH].
  - by rewrite decide_False by apply not_elem_of_nil.
  - cbn [fmap list_fmap list_to_map foldr]. cbn.
    rewrite lookup_insert. destruct (decide (c' = c)) as [->|Hne].
    + by rewrite decide_True by left.
    + rewrite IH. destruct (decide (c ∈ cols)) as [Hin|Hnin].
      * by rewrite decide_True by (by right).
      * rewrite decide_False; [done|].
        rewrite elem_of_cons. by intros [?|?].
Qed.

(** C10.  The legend and the map agree: for every label string, the colour
    of its legend entry is the fill colour [style_function] gives to a
    feature that carries this label in the selected category; in
    particular to the feature made of any record of the table that holds
    the label in that column. *)
Theorem C10_legend_and_style_agree label cat :
  (∀ props : gmap string value,
     props !! cat = Some (VStr label) →
     fillColor (style_function cat props) = legend_color (VStr label)) ∧
  (∀ gdf r,
     cat ∈ columns gdf → cell cat r = VStr label →
     fillColor (style_function cat (properties (to_feature (columns gdf) r)))
     = legend_color (VStr label)).
Proof.
  split.
  - intros props Hl. by apply style_function_legend_color.
  - intros gdf r Hc Hcell. apply style_function_legend_color; [|done].
    rewrite properties_to_feature, decide_True by done. by rewrite Hcell.
Qed.

End features.


(** ** Lists of names *)

Section names.

Lemma elem_of_unique {A} `{EqDecision A} (l : list A) x :
  x ∈ unique l ↔ x ∈ l.
Proof.
  induction l as [|a l IH]; [done|].
  cbn [unique]. rewrite !elem_of_cons, list_elem_of_filter, IH.
  destruct (decide (x = a)) as [->|Hne]; [by split; left|].
  split.
  - intros [?|[_ ?]]; [by left|by right].
  - intros [?|?]; [done|by right].
Qed.

Lemma NoDup_unique {A} `{EqDecision A} (l : list A) : NoDup (unique l).
Proof.
  induction l as [|a l IH]; [constructor|].
  cbn [unique]. apply NoDup_cons. split.
  - rewrite list_elem_of_filter. by intros [? _].
  - by apply NoDup_filter.
Qed.

Lemma not_missing_str v :
  not_missing v = true ↔ ∃ s, v = VStr s ∧ s ≠ "nan".
Proof.
  unfold not_missing. rewrite andb_true_iff, !bool_decide_eq_true.
  destruct v as [| |s]; cbn [str].
  - split; [by intros [? _]|]. by intros (s & ? & _).
  - split; [by intros [_ ?]|]. by intros (s & ? & _).
  - split; [intros [_ ?]; by exists s|].
    by intros (s' & [= <-] & ?).
Qed.

Lemma elem_of_valid_names col s :
  s ∈ valid_names col ↔ VStr s ∈ col ∧ s ≠ "nan".
Proof.
  unfold valid_names. rewrite list_elem_of_fmap. split.
  - intros (v & -> & Hv). apply list_elem_of_filter in Hv as [Hm Hv].
    apply Is_true_true, not_missing_str in Hm as (s & -> & Hs).
    rewrite elem_of_unique in Hv. by cbn [str].
  - intros [Hin Hs]. exists (VStr s). split; [done|].
    apply list_elem_of_filter. split.
    + apply Is_true_true, not_missing_str. by exists s.
    + by apply elem_of_unique.
Qed.

Lemma NoDup_valid_names col : NoDup (valid_names col).
Proof.
  unfold valid_names. apply NoDup_fmap_2_strong.
  - intros v1 v2 [H1 _]%list_elem_of_filter [H2 _]%list_elem_of_filter.
    apply Is_true_true, not_missing_str in H1 as (s1 & -> & _).
    apply Is_true_true, not_missing_str in H2 as (s2 & -> & _).
    cbn. by intros ->.
  - apply NoDup_filter, NoDup_unique.
Qed.

Lemma elem_of_sorted l s : s ∈ Py.sorted l ↔ s ∈ l.
Proof. unfold Py.sorted. by rewrite merge_sort_Permutation. Qed.

Lemma NoDup_sorted l : NoDup (Py.sorted l) ↔ NoDup l.
Proof. unfold Py.sorted. by rewrite merge_sort_Permutation. Qed.

Lemma sorted_sorted l : StronglySorted String.le (Py.sorted l).
Proof. apply StronglySorted_merge_sort; apply _. Qed.

End names.

(** ** The table and the region filter *)

Section table.
Context {geometry : Type}.
Implicit Types gdf filtered_gdf subset : GeoDataFrame geometry.
Implicit Types r : Row geometry.
Implicit Types c s d : string.

Lemma column_Ok gdf c :
  c ∈ columns gdf → column gdf c = Ok (cell c <$> rows gdf).
Proof. intros Hc. unfold column. by rewrite decide_True. Qed.

Lemma column_Raise gdf c :
  c ∉ columns gdf → column gdf c = Raise (KeyError c).
Proof. intros Hc. unfold column. by rewrite decide_False. Qed.

Lemma select_eq_Ok gdf c s :
  c ∈ columns gdf →
  select_eq gdf c s
  = Ok {| columns := columns gdf;
          rows := filter (λ r, cell c r = VStr s) (rows gdf) |}.
Proof. intros Hc. unfold select_eq. by rewrite column_Ok. Qed.

Lemma elem_of_column gdf c v :
  v ∈ cell c <$> rows gdf ↔ ∃ r, r ∈ rows gdf ∧ cell c r = v.
Proof.
  rewrite list_elem_of_fmap. split.
  - intros (r & -> & ?). by exists r.
  - intros (r & ? & <-). by exists r.
Qed.



(** The options are of the form the select boxes need. *)
Lemma states_Ok gdf : ∃ names, states gdf = Ok ("All States" :: names).
Proof.
  unfold states. case_decide as Hc; [|by eexists].
  rewrite column_Ok by done. by eexists.
Qed.

Lemma states_elem gdf opts s :
  states gdf = Ok opts → s ∈ opts →
  s = "All States" ∨
  ("NAME_1" ∈ columns gdf ∧ s ≠ "nan" ∧
   ∃ r, r ∈ rows gdf ∧ cell "NAME_1" r = VStr s).
Proof.
  unfold states. case_decide as Hc.
  - rewrite column_Ok by done. intros [= <-] Hs.
    apply elem_of_cons in Hs as [->|Hs]; [by left|right].
    apply elem_of_sorted, elem_of_valid_names in Hs as [Hs ?].
    by apply elem_of_column in Hs.
  - intros [= <-] ->%list_elem_of_singleton. by left.
Qed.


Lemma districts_no_column gdf filtered_gdf selected_state :
  "NAME_2" ∉ columns gdf →
  districts gdf filtered_gdf selected_state = Ok ["All Districts"].
Proof. intros Hc. unfold districts. by rewrite decide_False. Qed.

End table.

(** ** The region filter *)

Section region_filter.
Context {geometry : Type}.
Implicit Types gdf filtered_gdf subset : GeoDataFrame geometry.
Implicit Types r : Row geometry.

Lemma filter_all {A} (P : A → Prop) `{∀ x, Decision (P x)} (l : list A) :
  (∀ x, P x) → filter P l = l.
Proof.
  intros HP. induction l as [|x l IH]; [done|].
  by rewrite filter_cons_True, IH.
Qed.

Lemma filter_by_state_spec gdf selected_state :
  selected_state = "All States" ∨ "NAME_1" ∈ columns gdf →
  filter_by_state gdf selected_state
  = Ok {| columns := columns gdf;
          rows := filter (Spec.state_matches selected_state) (rows gdf) |}.
Proof.
  intros Hs. unfold filter_by_state. case_decide as Hall.
  - destruct Hs as [?|Hc]; [done|]. rewrite select_eq_Ok by done.
    do 2 f_equal. apply list_filter_iff. intros r.
    unfold Spec.state_matches. split; [by right|by intros [?|?]].
  - cbn. destruct gdf as [cols rs]; cbn.
    do 2 f_equal. symmetry. apply filter_all. intros r. by left.
Qed.

Lemma filter_by_district_spec filtered_gdf selected_district :
  selected_district = "All Districts" ∨ "NAME_2" ∈ columns filtered_gdf →
  filter_by_district filtered_gdf selected_district
  = Ok {| columns := columns filtered_gdf;
          rows := filter (Spec.district_matches selected_district)
                    (rows filtered_gdf) |}.
Proof.
  intros Hd. unfold filter_by_district. case_decide as Hall.
  - destruct Hd as [?|Hc]; [done|]. rewrite select_eq_Ok by done.
    do 2 f_equal. apply list_filter_iff. intros r.
    unfold Spec.district_matches. split; [by right|by intros [?|?]].
  - cbn. destruct filtered_gdf as [cols rs]; cbn.
    do 2 f_equal. symmetry. apply filter_all. intros r. by left.
Qed.

(** The region filter on a selection the table can be filtered by: exactly
    the records that pass the state selection and, among those, the
    district selection, in the order of the table. *)
Lemma region_filter_exact gdf selected_state selected_district :
  selected_state = "All States" ∨ "NAME_1" ∈ columns gdf →
  selected_district = "All Districts" ∨ "NAME_2" ∈ columns gdf →
  ∃ subset,
    region_filter gdf selected_state selected_district = Ok subset ∧
    columns subset = columns gdf ∧
    rows subset
    = filter (Spec.district_matches selected_district)
        (filter (Spec.state_matches selected_state) (rows gdf)) ∧
    ∀ r, r ∈ rows subset ↔
         r ∈ rows gdf ∧
         Spec.state_matches selected_state r ∧
         Spec.district_matches selected_district r.
Proof.
  intros Hs Hd. unfold region_filter.
  rewrite filter_by_state_spec by done. cbn.
  rewrite filter_by_district_spec by done. cbn.
  eexists. split_and!; [done..|].
  intros r. cbn [rows]. rewrite !list_elem_of_filter. tauto.
Qed.

End region_filter.

(** ** The district options (claim C3) *)

Section district_options.
Context {geometry : Type}.
Implicit Types gdf filtered_gdf : GeoDataFrame geometry.
Implicit Types r : Row geometry.

Lemma district_list_sorted_names gdf (rs : list (Row geometry))
    (scope : Row geometry → Prop) :
  "NAME_2" ∈ columns gdf →
  (∀ r, r ∈ rs ↔ r ∈ rows gdf ∧ scope r) →
  Spec.district_list gdf scope (λ d, d ≠ "nan")
    ("All Districts" :: Py.sorted (valid_names (cell "NAME_2" <$> rs))).
Proof.
  intros Hc Hrs. eexists. split_and!; [done|apply sorted_sorted|..].
  - apply NoDup_sorted, NoDup_valid_names.
  - intros d. rewrite elem_of_sorted, elem_of_valid_names, list_elem_of_fmap.
    split.
    + intros [(r & Hd & Hr) Hnan]. apply Hrs in Hr as [Hr Hscope].
      split_and!; [done..|]. by exists r.
    + intros (_ & Hnan & r & Hr & Hscope & Hd).
      split; [|done]. exists r. split; [done|]. by apply Hrs.
Qed.

Lemma district_list_no_column gdf (scope : Row geometry → Prop)
    (counts : string → Prop) :
  "NAME_2" ∉ columns gdf →
  Spec.district_list gdf scope counts ["All Districts"].
Proof.
  intros Hc. exists []. split_and!; [done|constructor|constructor|].
  intros d. split; [by intros ?%elem_of_nil|]. by intros [? _].
Qed.

Lemma offered_districts_all gdf :
  offered_districts gdf "All States"
  = Ok (if decide ("NAME_2" ∈ columns gdf)
        then "All Districts" :: Py.sorted (valid_names (cell "NAME_2" <$> rows gdf))
        else ["All Districts"]).
Proof.
  unfold offered_districts, filter_by_state, districts. cbn.
  case_decide as Hc; [|done]. by rewrite column_Ok.
Qed.

Lemma offered_districts_state gdf S :
  S ≠ "All States" → "NAME_1" ∈ columns gdf →
  offered_districts gdf S
  = Ok (if decide ("NAME_2" ∈ columns gdf)
        then "All Districts" ::
             Py.sorted (valid_names
               (cell "NAME_2" <$> filter (λ r, cell "NAME_1" r = VStr S) (rows gdf)))
        else ["All Districts"]).
Proof.
  intros HS Hc1. unfold offered_districts, filter_by_state.
  rewrite decide_True by done. rewrite select_eq_Ok by done. cbn.
  unfold districts. case_decide as Hc; [|done].
  rewrite decide_True by done. by rewrite column_Ok.
Qed.

(** C3, as amended.  For a state [S] offered by the state selector, the
    district selector offers "All Districts" followed by the sorted,
    de-duplicated district names of exactly the records whose [NAME_1] is
    [S]; under "All States" the names are those of the whole table.  A
    district name is the text of a [NAME_2] cell other than the text
    [nan]: missing cells give no name, and neither does the text [nan]. *)
Theorem C3_district_options gdf opts S :
  states gdf = Ok opts → S ∈ opts →
  ∃ offered,
    offered_districts gdf S = Ok offered ∧
    (S ≠ "All States" →
     Spec.district_list gdf (λ r, cell "NAME_1" r = VStr S) (λ d, d ≠ "nan")
       offered) ∧
    (S = "All States" →
     Spec.district_list gdf (λ _, True) (λ d, d ≠ "nan") offered).
Proof.
  intros Hopts HS. destruct (decide (S = "All States")) as [->|Hne].
  - rewrite offered_districts_all. eexists. split_and!; [done|done|].
    intros _. case_decide as Hc.
    + apply district_list_sorted_names; [done|]. intros r. tauto.
    + by apply district_list_no_column.
  - destruct (states_elem _ _ _ Hopts HS) as [?|(Hc1 & _ & _)]; [done|].
    rewrite offered_districts_state by done.
    eexists. split_and!; [done| |done].
    intros _. case_decide as Hc.
    + apply district_list_sorted_names; [done|].
      intros r. by rewrite list_elem_of_filter, (comm and).
    + by apply district_list_no_column.
Qed.

End district_options.

(** ** Running the page *)

Section page_facts.
Context {geometry : Type}.
Implicit Types gdf filtered_gdf : GeoDataFrame geometry.
Implicit Types w : widget geometry.

Lemma ui_eta {A} (m : ui geometry A) : Ui (page m) (outcome m) = m.
Proof. by destruct m. Qed.

Lemma bind_emit {B} w (k : ui geometry B) :
  (emit w;; k) = Ui (w :: page k) (outcome k).
Proof. reflexivity. Qed.

Lemma bind_lift_Ok {A B} (a : A) (k : A → ui geometry B) :
  (lift (Ok a) ≫= k) = k a.
Proof. unfold mbind, ui_bind, lift; cbn. apply ui_eta. Qed.

Lemma bind_lift_Raise {A B} e (k : A → ui geometry B) :
  (lift (Raise e) ≫= k) = Ui [] (Raise e).
Proof. reflexivity. Qed.

Lemma bind_Ui_Ok {A B} ws (a : A) (k : A → ui geometry B) :
  (Ui ws (Ok a) ≫= k) = Ui (ws ++ page (k a)) (outcome (k a)).
Proof. reflexivity. Qed.

Lemma bind_Ok {A B} ws (a : A) (m : ui geometry A) (k : A → ui geometry B)
    ws' (b : B) :
  m = Ui ws (Ok a) → k a = Ui ws' (Ok b) → (m ≫= k) = Ui (ws ++ ws') (Ok b).
Proof. intros -> Hk. unfold mbind, ui_bind; cbn. by rewrite Hk. Qed.

Lemma bind_ret_Ok {A B} (m : ui geometry A) (a : A) (b : B) :
  outcome m = Ok a → (m;; mret b) = Ui (page m) (Ok b).
Proof.
  intros Hm. unfold mbind, ui_bind. rewrite Hm. cbn. by rewrite app_nil_r.
Qed.

Lemma selectbox_Ok (options : list string) fmt pick :
  selectbox options fmt pick
  = Ui [st_selectbox (geometry := geometry) (fmt <$> options)]
       (Ok (nth pick options (hd "" options))).
Proof. reflexivity. Qed.

Lemma ui_for_Ok {A} (l : list A) (body : A → ui geometry ()) :
  (∀ x, outcome (body x) = Ok ()) →
  ui_for l body = Ui (l ≫= (λ x, page (body x))) (Ok ()).
Proof.
  intros Hbody. induction l as [|x l IH]; [done|].
  cbn [ui_for]. unfold mbind at 1, ui_bind. rewrite Hbody, IH. done.
Qed.

Lemma pick_elem (options : list string) pick :
  options ≠ [] → nth pick options (hd "" options) ∈ options.
Proof.
  intros Hne. apply list_elem_of_In.
  destruct (decide (pick < length options)) as [Hlt|Hge].
  - by apply nth_In.
  - rewrite nth_overflow by lia. destruct options; [done|]. by left.
Qed.

Lemma legend_spec filtered_gdf selected_category :
  legend filtered_gdf selected_category
  = Ui (if decide (selected_category ∈ columns filtered_gdf) then
          (λ value, st_markdown (legend_html (legend_color value) value)) <$>
          filter (λ v, not_missing v)
            (unique (cell selected_category <$> rows filtered_gdf))
        else [])
       (Ok ()).
Proof.
  unfold legend. case_decide as Hc; [|done].
  rewrite column_Ok by done. rewrite bind_lift_Ok.
  rewrite ui_for_Ok by done. f_equal.
Qed.

Lemma districts_Ok gdf filtered_gdf selected_state :
  columns filtered_gdf = columns gdf →
  ∃ names,
    districts gdf filtered_gdf selected_state = Ok ("All Districts" :: names) ∧
    ("NAME_2" ∉ columns gdf → names = []).
Proof.
  intros Hcols. unfold districts. case_decide as Hc.
  - case_decide; rewrite column_Ok by (by rewrite ?Hcols); cbn;
      (eexists; split; [done|by intros ?]).
  - by exists [].
Qed.

(** The controls column never raises: each select box offers only what the
    table can be filtered by. *)
Lemma controls_spec gdf choice :
  ∃ state_names selected_state filtered_by_state district_names
    selected_district filtered_gdf selected_category,
    states gdf = Ok ("All States" :: state_names) ∧
    selected_state = nth (state_choice choice) ("All States" :: state_names)
                       "All States" ∧
    filter_by_state gdf selected_state = Ok filtered_by_state ∧
    districts gdf filtered_by_state selected_state
    = Ok ("All Districts" :: district_names) ∧
    selected_district = nth (district_choice choice)
                          ("All Districts" :: district_names) "All Districts" ∧
    filter_by_district filtered_by_state selected_district = Ok filtered_gdf ∧
    selected_category ∈ categories.*1 ∧
    controls gdf choice
    = Ui ([ st_header "Selection Controls";
            st_subheader "Select State:";
            st_selectbox ("All States" :: state_names);
            st_subheader "Select District:";
            st_selectbox ("All Districts" :: district_names);
            st_subheader "Select Category:";
            st_selectbox ["Adaptation"; "Mitigation"; "Replacement"; "General SI"];
            st_header "Legend" ]
          ++ page (legend filtered_gdf selected_category))
         (Ok (filtered_gdf, selected_district, selected_category)).
Proof.
  destruct (states_Ok gdf) as [state_names Hstates].
  set (selected_state :=
         nth (state_choice choice) ("All States" :: state_names) "All States").
  assert (selected_state ∈ "All States" :: state_names) as Hin
    by (by apply (pick_elem ("All States" :: state_names))).
  assert (selected_state = "All States" ∨ "NAME_1" ∈ columns gdf) as Hreach.
  { destruct (states_elem _ _ _ Hstates Hin) as [?|[? _]]; [by left|by right]. }
  pose proof (filter_by_state_spec _ _ Hreach) as Hf1.
  set (filtered_by_state := {| columns := _ |}) in Hf1.
  destruct (districts_Ok gdf filtered_by_state selected_state eq_refl)
    as (district_names & Hdistricts & Hnone).
  set (selected_district :=
         nth (district_choice choice) ("All Districts" :: district_names)
           "All Districts").
  assert (selected_district = "All Districts" ∨
          "NAME_2" ∈ columns filtered_by_state) as Hreach2.
  { destruct (decide ("NAME_2" ∈ columns gdf)) as [?|Hc]; [by right|left].
    subst selected_district. rewrite (Hnone Hc). by destruct (district_choice _) as [|[]]. }
  pose proof (filter_by_district_spec _ _ Hreach2) as Hf2.
  set (filtered_gdf := {| columns := _ |}) in Hf2.
  set (selected_category :=
         nth (category_choice choice) categories.*1 (hd "" categories.*1)).
  exists state_names, selected_state, filtered_by_state, district_names,
    selected_district, filtered_gdf, selected_category.
  split_and!; try done.
  { by apply pick_elem. }
  unfold controls.
  eapply (bind_Ok [_]); [done|].
  eapply (bind_Ok [_]); [done|].
  rewrite Hstates. eapply (bind_Ok []); [done|].
  eapply (bind_Ok [_]); [by rewrite selectbox_Ok, list_fmap_id|].
  cbn [hd]. fold selected_state.
  rewrite Hf1. eapply (bind_Ok []); [done|].
  eapply (bind_Ok [_]); [done|].
  rewrite Hdistricts. eapply (bind_Ok []); [done|].
  eapply (bind_Ok [_]); [by rewrite selectbox_Ok, list_fmap_id|].
  cbn [hd]. fold selected_district.
  rewrite Hf2. eapply (bind_Ok []); [done|].
  eapply (bind_Ok [_]); [done|].
  eapply (bind_Ok [_]); [reflexivity|]. fold selected_category.
  eapply (bind_Ok [_]); [done|].
  apply (bind_ret_Ok _ ()). by rewrite legend_spec.
Qed.

(** What the select boxes offer can be filtered by: a specific state is
    offered only by a table with the column [NAME_1], a specific district
    only by one with the column [NAME_2]. *)
Lemma offered_selection_filterable gdf state_options selected_state
    filtered_gdf district_options selected_district :
  states gdf = Ok state_options → selected_state ∈ state_options →
  districts gdf filtered_gdf selected_state = Ok district_options →
  selected_district ∈ district_options →
  (selected_state = "All States" ∨ "NAME_1" ∈ columns gdf) ∧
  (selected_district = "All Districts" ∨ "NAME_2" ∈ columns gdf).
Proof.
  intros Hstates Hs Hdistricts Hd. split.
  - destruct (states_elem _ _ _ Hstates Hs) as [?|[? _]]; [by left|by right].
  - destruct (decide ("NAME_2" ∈ columns gdf)) as [?|Hc]; [by right|left].
    rewrite districts_no_column in Hdistricts by done.
    injection Hdistricts as <-. by apply list_elem_of_singleton in Hd.
Qed.

(** C2.  The region filter returns, without an error, exactly the records
    that pass the state selection and, among those, the district selection:
    under "All States" ("All Districts") no condition is applied, otherwise
    the record's [NAME_1] ([NAME_2]) is the selected string.  The order and
    multiplicity of the records are those of the table, and the subset may
    be empty.  This holds for every pair in which a specific state
    (district) is selected on a table that has the state (district) column,
    and so for whatever the user picks in the two select boxes. *)
Theorem C2_region_filter_exact gdf :
  (∀ selected_state selected_district,
     selected_state = "All States" ∨ "NAME_1" ∈ columns gdf →
     selected_district = "All Districts" ∨ "NAME_2" ∈ columns gdf →
     ∃ subset,
       region_filter gdf selected_state selected_district = Ok subset ∧
       columns subset = columns gdf ∧
       rows subset
       = filter (Spec.district_matches selected_district)
           (filter (Spec.state_matches selected_state) (rows gdf)) ∧
       ∀ r, r ∈ rows subset ↔
            r ∈ rows gdf ∧
            Spec.state_matches selected_state r ∧
            Spec.district_matches selected_district r) ∧
  (∀ choice,
     ∃ selected_state selected_district selected_category subset,
       outcome (controls gdf choice)
       = Ok (subset, selected_district, selected_category) ∧
       region_filter gdf selected_state selected_district = Ok subset ∧
       rows subset
       = filter (Spec.district_matches selected_district)
           (filter (Spec.state_matches selected_state) (rows gdf))).
Proof.
  split; [apply region_filter_exact|].
  intros choice.
  destruct (controls_spec gdf choice)
    as (state_names & selected_state & filtered_by_state & district_names &
        selected_district & subset & selected_category &
        Hstates & Hs & Hf1 & Hdistricts & Hd & Hf2 & Hcat & Hrun).
  exists selected_state, selected_district, selected_category, subset.
  assert (region_filter gdf selected_state selected_district = Ok subset)
    as Hfilter by (unfold region_filter; by rewrite Hf1).
  split_and!; [by rewrite Hrun|done|].
  assert (selected_state ∈ "All States" :: state_names) as Hin1
    by (rewrite Hs; by apply (pick_elem ("All States" :: state_names))).
  assert (selected_district ∈ "All Districts" :: district_names) as Hin2
    by (rewrite Hd; by apply (pick_elem ("All Districts" :: district_names))).
  destruct (offered_selection_filterable _ _ _ _ _ _ Hstates Hin1 Hdistricts Hin2)
    as [Hr1 Hr2].
  destruct (region_filter_exact gdf selected_state selected_district Hr1 Hr2)
    as (subset' & Hfilter' & _ & Hrows & _).
  rewrite Hfilter in Hfilter'. by injection Hfilter' as <-.
Qed.

End page_facts.

(** A widget that is written out in the page. *)
Ltac in_page :=
  repeat first [ apply list_elem_of_here | apply list_elem_of_further ].

(** ** The map column (claims C4 and C9) *)

Section zoom_facts.

Lemma float_gt_exceeds x n :
  float_gt x (float_of_Z n) = true ↔ Spec.exceeds x n.
Proof.
  destruct x; cbn; try done.
  by rewrite bool_decide_eq_true.
Qed.

Lemma float_lt_below x n :
  float_lt x (float_of_Z n) = true ↔ Spec.below x n.
Proof.
  destruct x; cbn; try done.
  by rewrite bool_decide_eq_true.
Qed.

Lemma zoom_level_wide lat_diff lon_diff :
  Spec.exceeds lat_diff 3 ∨ Spec.exceeds lon_diff 3 →
  zoom_level lat_diff lon_diff = 6%Z.
Proof.
  rewrite <-!float_gt_exceeds, <-orb_true_iff. unfold zoom_level.
  by intros ->.
Qed.

Lemma zoom_level_narrow lat_diff lon_diff :
  ¬ (Spec.exceeds lat_diff 3 ∨ Spec.exceeds lon_diff 3) →
  Spec.below lat_diff 1 ∨ Spec.below lon_diff 1 →
  zoom_level lat_diff lon_diff = 9%Z.
Proof.
  rewrite <-!float_gt_exceeds, <-!float_lt_below, <-!orb_true_iff.
  unfold zoom_level. intros ->%not_true_is_false. by intros ->.
Qed.

Lemma zoom_level_default lat_diff lon_diff :
  ¬ (Spec.exceeds lat_diff 3 ∨ Spec.exceeds lon_diff 3) →
  ¬ (Spec.below lat_diff 1 ∨ Spec.below lon_diff 1) →
  zoom_level lat_diff lon_diff = 7%Z.
Proof.
  rewrite <-!float_gt_exceeds, <-!float_lt_below, <-!orb_true_iff.
  unfold zoom_level. by intros ->%not_true_is_false ->%not_true_is_false.
Qed.

End zoom_facts.

Section detail_panel.
Context {geometry : Type}.
Implicit Types filtered_gdf : GeoDataFrame geometry.
Implicit Types r : Row geometry.

Lemma district_details_all filtered_gdf :
  district_details filtered_gdf "All Districts" = Ui [] (Ok ()).
Proof. reflexivity. Qed.

Lemma district_details_first filtered_gdf selected_district r rest :
  selected_district ≠ "All Districts" →
  rows filtered_gdf = r :: rest →
  district_details filtered_gdf selected_district
  = Ui (st_subheader ("Details for " +:+ selected_district)
        :: detail_lines filtered_gdf r)
       (Ok ()).
Proof.
  intros Hd Hrows. unfold district_details, iloc0.
  rewrite decide_True by done. rewrite Hrows.
  eapply (bind_Ok [_]); [done|]. rewrite bind_lift_Ok.
  rewrite ui_for_Ok.
  - f_equal. unfold detail_lines. apply list_bind_ext; [|done].
    intros [category display_name]. by repeat case_match.
  - intros [category display_name]. by repeat case_match.
Qed.

Lemma district_details_Ok filtered_gdf selected_district :
  rows filtered_gdf ≠ [] →
  outcome (district_details filtered_gdf selected_district) = Ok ().
Proof.
  intros Hne. destruct (rows filtered_gdf) as [|r rest] eqn:Hrows; [done|].
  destruct (decide (selected_district = "All Districts")) as [->|Hd]; [done|].
  by erewrite district_details_first.
Qed.

Lemma elem_of_detail_lines filtered_gdf r w :
  w ∈ detail_lines filtered_gdf r ↔
  ∃ category display_name text,
    (category, display_name) ∈ Spec.display_names ∧
    category ∈ columns filtered_gdf ∧
    cell category r = VStr text ∧
    text ≠ "nan" ∧
    w = st_write ("**" +:+ display_name +:+ ":** " +:+ text).
Proof.
  unfold detail_lines. rewrite list_elem_of_bind. split.
  - intros ([category display_name] & Hw & Hin).
    case_decide as Hc; [|by apply elem_of_nil in Hw].
    destruct (not_missing (cell category r)) eqn:Hm;
      [|by apply elem_of_nil in Hw].
    apply not_missing_str in Hm as (text & Htext & Hnan).
    apply list_elem_of_singleton in Hw. rewrite Htext in Hw.
    by exists category, display_name, text.
  - intros (category & display_name & text & Hin & Hc & Htext & Hnan & ->).
    exists (category, display_name). split; [|done].
    rewrite decide_True by done.
    assert (not_missing (cell category r) = true) as ->
      by (apply not_missing_str; by exists text).
    rewrite Htext. by apply list_elem_of_singleton.
Qed.

End detail_panel.

Section map_column.
Context {geometry : Type} `{!GeoLib geometry}.
Implicit Types filtered_gdf : GeoDataFrame geometry.

Lemma center_Ok filtered_gdf cs :
  centroid (geom <$> rows filtered_gdf) = Ok cs →
  center filtered_gdf = Ok (series_mean cs.*2, series_mean cs.*1).
Proof. intros Hcs. unfold center. by rewrite Hcs. Qed.

Lemma center_Raise filtered_gdf e :
  centroid (geom <$> rows filtered_gdf) = Raise e →
  center filtered_gdf = Ok default_center.
Proof. intros Hcs. unfold center. by rewrite Hcs. Qed.

Lemma center_total filtered_gdf : ∃ c, center filtered_gdf = Ok c.
Proof.
  destruct (centroid (geom <$> rows filtered_gdf)) as [cs|e] eqn:Hcs.
  - eexists. by apply center_Ok.
  - eexists. by apply (center_Raise _ e).
Qed.

Lemma zoom_Ok filtered_gdf minx miny maxx maxy :
  total_bounds (geom <$> rows filtered_gdf) = Ok (minx, miny, maxx, maxy) →
  zoom filtered_gdf
  = Ok (zoom_level (float_sub maxy miny) (float_sub maxx minx)).
Proof. intros Hb. unfold zoom. by rewrite Hb. Qed.

Lemma zoom_Raise filtered_gdf e :
  total_bounds (geom <$> rows filtered_gdf) = Raise e →
  zoom filtered_gdf = Raise e.
Proof. intros Hb. unfold zoom. by rewrite Hb. Qed.

(** The map column on an empty subset: the notice, nothing else. *)
Lemma map_column_empty filtered_gdf selected_district selected_category :
  rows filtered_gdf = [] →
  map_column filtered_gdf selected_district selected_category
  = Ui [ st_header "Solar Suitability Map";
         st_warning "No data available for the selected filters." ]
       (Ok ()).
Proof.
  intros Hrows. unfold map_column, empty. by rewrite bool_decide_eq_true_2.
Qed.

(** The bounds are computed outside the [try] of lines 173-179: when they
    fail, the exception leaves the map column. *)
Lemma map_column_bounds_Raise filtered_gdf selected_district selected_category e :
  rows filtered_gdf ≠ [] →
  total_bounds (geom <$> rows filtered_gdf) = Raise e →
  map_column filtered_gdf selected_district selected_category
  = Ui [st_header "Solar Suitability Map"] (Raise e).
Proof.
  intros Hne Hb. unfold map_column, empty.
  rewrite bool_decide_eq_false_2 by done. cbn [negb].
  destruct (center_total filtered_gdf) as [c ->].
  rewrite bind_emit, bind_lift_Ok, (zoom_Raise _ _ Hb), bind_lift_Raise.
  done.
Qed.

(** A centre with a [nan] coordinate is no exception of lines 173-179, so
    the default centre is not used; [folium.Map] refuses it at line 191 and
    the exception leaves the map column. *)
Lemma map_column_nan_center filtered_gdf selected_district selected_category
    c bounds :
  rows filtered_gdf ≠ [] →
  center filtered_gdf = Ok c →
  isnan c.1 || isnan c.2 = true →
  total_bounds (geom <$> rows filtered_gdf) = Ok bounds →
  ∃ msg,
    map_column filtered_gdf selected_district selected_category
    = Ui [st_header "Solar Suitability Map"] (Raise (ValueError msg)).
Proof.
  intros Hne Hc Hnan Hb. destruct bounds as [[[minx miny] maxx] maxy].
  eexists. unfold map_column, empty.
  rewrite bool_decide_eq_false_2 by done. cbn [negb].
  rewrite bind_emit, Hc, bind_lift_Ok, (zoom_Ok _ _ _ _ _ Hb), bind_lift_Ok.
  unfold folium_Map. rewrite Hnan. by rewrite bind_lift_Raise.
Qed.


(** C4.  The zoom level is decided by the two spans of the bounding box,
    [lat_span = maxy - miny] and [lon_span = maxx - minx]: 6 when either
    exceeds 3; otherwise 9 when either is below 1; otherwise 7.  So a
    latitude span of 3.5 gives 6; a span of 0.5 gives 9 (the other span not
    exceeding 3); a span of 2 gives 7 (the other span neither exceeding 3
    nor below 1). *)
Theorem C4_zoom_heuristic filtered_gdf minx miny maxx maxy :
  total_bounds (geom <$> rows filtered_gdf) = Ok (minx, miny, maxx, maxy) →
  let lat_span := float_sub maxy miny in
  let lon_span := float_sub maxx minx in
  ∃ z,
    zoom filtered_gdf = Ok z ∧
    (Spec.exceeds lat_span 3 ∨ Spec.exceeds lon_span 3 → z = 6%Z) ∧
    (¬ (Spec.exceeds lat_span 3 ∨ Spec.exceeds lon_span 3) →
     Spec.below lat_span 1 ∨ Spec.below lon_span 1 → z = 9%Z) ∧
    (¬ (Spec.exceeds lat_span 3 ∨ Spec.exceeds lon_span 3) →
     ¬ (Spec.below lat_span 1 ∨ Spec.below lon_span 1) → z = 7%Z) ∧
    (lat_span = FNum (Qc_of_Z 7 / Qc_of_Z 2)%Qc → z = 6%Z) ∧
    (lat_span = FNum (Qc_of_Z 1 / Qc_of_Z 2)%Qc →
     ¬ Spec.exceeds lon_span 3 → z = 9%Z) ∧
    (lat_span = FNum (Qc_of_Z 2) →
     ¬ Spec.exceeds lon_span 3 → ¬ Spec.below lon_span 1 → z = 7%Z).
Proof.
  intros Hb lat_span lon_span. eexists. split; [by apply zoom_Ok|].
  fold lat_span lon_span. split_and!.
  - apply zoom_level_wide.
  - apply zoom_level_narrow.
  - apply zoom_level_default.
  - intros Hlat. apply zoom_level_wide. left. by rewrite Hlat.
  - intros Hlat Hlon. apply zoom_level_narrow.
    + intros [He|He]; [|done]. by rewrite Hlat in He.
    + left. by rewrite Hlat.
  - intros Hlat Hlon Hlon'. apply zoom_level_default.
    + intros [He|He]; [|done]. by rewrite Hlat in He.
    + intros [He|He]; [|done]. by rewrite Hlat in He.
Qed.

(** C9, as amended.  When a specific district is selected and the subset
    is not empty, the detail panel is a heading followed by one line for
    each of the four category attributes that is a column of the table and
    holds, in the first record of the subset, a text other than [nan]: the
    text under the corrected display label ([Replacment] is shown as
    "Replacement").  Missing values, and the text [nan], give no line, and
    writing the panel raises nothing. *)
Theorem C9_detail_panel filtered_gdf selected_district :
  selected_district ≠ "All Districts" →
  rows filtered_gdf ≠ [] →
  outcome (district_details filtered_gdf selected_district) = Ok () ∧
  Spec.detail_panel filtered_gdf selected_district (λ text, text ≠ "nan")
    (page (district_details filtered_gdf selected_district)) ∧
  dict_get categories "Replacment" = Ok "Replacement".
Proof.
  intros Hd Hne. split_and!; [by apply district_details_Ok| |done].
  destruct (rows filtered_gdf) as [|r rest] eqn:Hrows; [done|].
  exists r, rest, (detail_lines filtered_gdf r). split_and!; [done|..].
  - by erewrite district_details_first.
  - apply elem_of_detail_lines.
Qed.

End map_column.

(** ** The whole run (claims C5, C6 and C8) *)

Section run.
Context {geometry : Type} `{!GeoLib geometry}.
Implicit Types gdf filtered_gdf : GeoDataFrame geometry.
Implicit Types env : Env geometry.

(** The controls column filters exactly as [region_filter] does. *)
Lemma controls_region_filter gdf choice filtered_gdf selected_district
    selected_category :
  outcome (controls gdf choice)
  = Ok (filtered_gdf, selected_district, selected_category) →
  ∃ selected_state,
    region_filter gdf selected_state selected_district = Ok filtered_gdf.
Proof.
  destruct (controls_spec gdf choice)
    as (state_names & selected_state & filtered_by_state & district_names &
        selected_district' & filtered_gdf' & selected_category' &
        Hstates & Hs & Hf1 & Hdistricts & Hd & Hf2 & Hcat & Hrun).
  rewrite Hrun. cbn [outcome]. intros [= <- <- <-].
  exists selected_state. unfold region_filter. by rewrite Hf1.
Qed.

(** No map is drawn in the controls column. *)
Lemma controls_no_map gdf choice m width height :
  folium_static m width height ∉ page (controls gdf choice).
Proof.
  destruct (controls_spec gdf choice)
    as (state_names & selected_state & filtered_by_state & district_names &
        selected_district & filtered_gdf & selected_category &
        _ & _ & _ & _ & _ & _ & _ & Hrun).
  rewrite Hrun, legend_spec. cbn [page].
  rewrite elem_of_app, !elem_of_cons, elem_of_nil.
  intros [[?|[?|[?|[?|[?|[?|[?|[?|[]]]]]]]]]|Hlegend]; try done.
  case_decide; [|by apply elem_of_nil in Hlegend].
  by apply list_elem_of_fmap in Hlegend as (v & ? & _).
Qed.

(** A run on a table that loads: the loader's notice, the controls column,
    the map column. *)
Lemma script_loaded env choice gdf filtered_gdf selected_district
    selected_category :
  read_file env (find_shapefile env "Solar_Suitability_layer") = Ok gdf →
  outcome (controls gdf choice)
  = Ok (filtered_gdf, selected_district, selected_category) →
  outcome (map_column filtered_gdf selected_district selected_category) = Ok () →
  script env choice
  = Ui (st_success ("Successfully loaded shapefile with "
                    +:+ pretty (length (rows gdf)) +:+ " features")
        :: page (controls gdf choice)
        ++ page (map_column filtered_gdf selected_district selected_category))
       (Ok ()).
Proof.
  intros Hread Hctl Hmap. unfold script. rewrite Hread, bind_lift_Ok.
  erewrite (bind_Ok [_] _ _ _ (page (controls gdf choice) ++
              page (map_column filtered_gdf selected_district selected_category))
              ()); [done|done|].
  eapply bind_Ok.
  - rewrite <-Hctl. symmetry. apply ui_eta.
  - cbv beta iota. rewrite <-Hmap. symmetry. apply ui_eta.
Qed.

(** What the handler writes, in one piece. *)
Lemma troubleshooting_page env e :
  troubleshooting env e
  = Ui ([ st_error ("Error: " +:+ exn_str e);
          st_subheader "Troubleshooting Information";
          st_write ("Current working directory: " +:+ getcwd env);
          st_write "Files in current directory:";
          st_write_list (listdir env) ]
        ++ (let found :=
              (λ comp, "Solar_Suitability_layer" +:+ comp) <$>
              filter (λ comp, path_exists env ("Solar_Suitability_layer" +:+ comp))
                [".shp"; ".dbf"; ".shx"; ".prj"] in
            if bool_decide (found ≠ [])
            then [st_write "Found shapefile components:"; st_write_list found]
            else [])
        ++ (let missing :=
              (λ comp, "Solar_Suitability_layer" +:+ comp) <$>
              filter (λ comp, ¬ path_exists env ("Solar_Suitability_layer" +:+ comp))
                [".shp"; ".dbf"; ".shx"; ".prj"] in
            if bool_decide (missing ≠ [])
            then [st_warning "Missing shapefile components:"; st_write_list missing]
            else []))
       (Ok ()).
Proof.
  unfold troubleshooting. cbv zeta.
  do 5 (eapply (bind_Ok [_]); [done|]).
  eapply bind_Ok; by repeat case_bool_decide.
Qed.

Lemma troubleshooting_Ok env e : outcome (troubleshooting env e) = Ok ().
Proof. by rewrite troubleshooting_page. Qed.

(** A run on a table that loads, whatever the map column does. *)
Lemma script_run env choice gdf filtered_gdf selected_district selected_category :
  read_file env (find_shapefile env "Solar_Suitability_layer") = Ok gdf →
  outcome (controls gdf choice)
  = Ok (filtered_gdf, selected_district, selected_category) →
  script env choice
  = match outcome (map_column filtered_gdf selected_district selected_category) with
    | Ok _ =>
        Ui (st_success ("Successfully loaded shapefile with "
                        +:+ pretty (length (rows gdf)) +:+ " features")
            :: page (controls gdf choice)
            ++ page (map_column filtered_gdf selected_district selected_category))
           (Ok ())
    | Raise e =>
        Ui ((st_success ("Successfully loaded shapefile with "
                         +:+ pretty (length (rows gdf)) +:+ " features")
             :: page (controls gdf choice)
             ++ page (map_column filtered_gdf selected_district selected_category))
            ++ page (troubleshooting env e))
           (Ok ())
    end.
Proof.
  intros Hread Hctl.
  destruct (outcome (map_column filtered_gdf selected_district selected_category))
    as [[]|e] eqn:Hmap.
  { by apply script_loaded. }
  unfold script. rewrite Hread, bind_lift_Ok.
  unfold ui_try, mbind, ui_bind. cbn [emit page outcome].
  rewrite Hctl, Hmap. cbn [page outcome]. by rewrite troubleshooting_Ok.
Qed.

(** C5.  When the subset left by the selection is empty, the map column
    writes its heading and the notice "No data available for the selected
    filters." and nothing else, whatever the geometry library would do: no
    centre, bounds or zoom is computed and no map is drawn.  The run ends
    without an error, the notice last on the page. *)
Theorem C5_empty_subset_no_data env choice gdf filtered_gdf selected_district
    selected_category :
  read_file env (find_shapefile env "Solar_Suitability_layer") = Ok gdf →
  outcome (controls gdf choice)
  = Ok (filtered_gdf, selected_district, selected_category) →
  rows filtered_gdf = [] →
  map_column filtered_gdf selected_district selected_category
  = Ui [ st_header "Solar Suitability Map";
         st_warning "No data available for the selected filters." ]
       (Ok ()) ∧
  outcome (script env choice) = Ok () ∧
  (∃ before,
     page (script env choice)
     = before ++ [ st_header "Solar Suitability Map";
                   st_warning "No data available for the selected filters." ]) ∧
  (∀ message, st_error message ∉ page (script env choice)) ∧
  (∀ m width height, folium_static m width height ∉ page (script env choice)).
Proof.
  intros Hread Hctl Hrows.
  pose proof (map_column_empty _ selected_district selected_category Hrows)
    as Hmap.
  split; [done|].
  rewrite (script_loaded _ _ _ _ _ _ Hread Hctl) by (by rewrite Hmap).
  rewrite Hmap. cbn [page outcome]. split_and!; [done|by eexists (_ :: _)|..].
  - intros message. rewrite elem_of_cons, elem_of_app, !elem_of_cons, elem_of_nil.
    intros [?|[Hin|[?|[?|[]]]]]; try done.
    revert Hin. destruct (controls_spec gdf choice)
      as (? & ? & ? & ? & ? & f & c & _ & _ & _ & _ & _ & _ & _ & ->).
    rewrite legend_spec. cbn [page].
    rewrite elem_of_app, !elem_of_cons, elem_of_nil.
    intros [[?|[?|[?|[?|[?|[?|[?|[?|[]]]]]]]]]|Hlegend]; try done.
    case_decide; [|by apply elem_of_nil in Hlegend].
    by apply list_elem_of_fmap in Hlegend as (v & ? & _).
  - intros m width height.
    rewrite elem_of_cons, elem_of_app, !elem_of_cons, elem_of_nil.
    intros [?|[Hin|[?|[?|[]]]]]; try done.
    by apply controls_no_map in Hin.
Qed.

(** The handler draws no map. *)
Lemma troubleshooting_no_map env e m width height :
  folium_static m width height ∉ page (troubleshooting env e).
Proof.
  rewrite troubleshooting_page. cbn [page]. cbv zeta.
  rewrite !elem_of_app, !elem_of_cons, elem_of_nil.
  intros [[?|[?|[?|[?|[?|[]]]]]]|[Hw|Hw]]; try done.
  - revert Hw. case_bool_decide; rewrite ?elem_of_cons, ?elem_of_nil;
      intros Hw; by destruct_or?.
  - revert Hw. case_bool_decide; rewrite ?elem_of_cons, ?elem_of_nil;
      intros Hw; by destruct_or?.
Qed.


(** C6.  What the code does on geometry that is degenerate without
    raising.  When the centroids of a subset with records are computed
    but a mean of their coordinates is [nan] (as it is when the records
    have null geometry), nothing is caught at lines 173-179: the centre is
    the pair of the two means and not the default centre.  [folium.Map]
    then refuses the centre with a [ValueError], which leaves the map
    column: the run ends on the error page with that message, and no map
    is drawn. *)
Theorem C6_nan_center_not_caught env choice gdf filtered_gdf selected_district
    selected_category cs bounds :
  read_file env (find_shapefile env "Solar_Suitability_layer") = Ok gdf →
  outcome (controls gdf choice)
  = Ok (filtered_gdf, selected_district, selected_category) →
  rows filtered_gdf ≠ [] →
  centroid (geom <$> rows filtered_gdf) = Ok cs →
  isnan (series_mean cs.*2) || isnan (series_mean cs.*1) = true →
  total_bounds (geom <$> rows filtered_gdf) = Ok bounds →
  center filtered_gdf = Ok (series_mean cs.*2, series_mean cs.*1) ∧
  center filtered_gdf ≠ Ok default_center ∧
  ∃ msg,
    map_column filtered_gdf selected_district selected_category
    = Ui [st_header "Solar Suitability Map"] (Raise (ValueError msg)) ∧
    st_error ("Error: " +:+ msg) ∈ page (script env choice) ∧
    ∀ m width height, folium_static m width height ∉ page (script env choice).
Proof.
  intros Hread Hctl Hne Hcs Hnan Hb.
  pose proof (center_Ok filtered_gdf cs Hcs) as Hc.
  split; [done|]. split.
  { rewrite Hc. intros [= Hy Hx]. rewrite Hy, Hx in Hnan. discriminate Hnan. }
  destruct (map_column_nan_center filtered_gdf selected_district
              selected_category _ bounds Hne Hc Hnan Hb) as [msg Hmap].
  exists msg. split; [done|].
  rewrite (script_run _ _ _ _ _ _ Hread Hctl), Hmap. cbn [outcome page]. split.
  - apply elem_of_app. right. rewrite troubleshooting_page. cbn [page exn_str].
    apply elem_of_app. left. apply list_elem_of_here.
  - intros m width height.
    rewrite !elem_of_app, elem_of_cons, elem_of_app, elem_of_cons, elem_of_nil.
    intros [[?|[Hin|[?|[]]]]|Hin]; try done.
    + by apply controls_no_map in Hin.
    + by apply troubleshooting_no_map in Hin.
Qed.

End run.


(** ** The dataset locator (claim C7) *)

Section locator.
Context {geometry : Type}.
Implicit Types env : Env geometry.
Implicit Types s suffix file : string.

Lemma endswith_spec s suffix :
  Py.endswith s suffix = true ↔ Py.suffix_of suffix s.
Proof.
  unfold Py.suffix_of. induction s as [|c s IH]; cbn [Py.endswith].
  - rewrite orb_false_r, bool_decide_eq_true. split.
    + intros <-. by exists "".
    + intros [pre Hp]. by destruct pre.
  - rewrite orb_true_iff, bool_decide_eq_true, IH. split.
    + intros [<-|[pre ->]]; [by exists ""|by exists (String c pre)].
    + intros [[|c' pre] Hp]; [by left|right].
      injection Hp as -> ->. by exists pre.
Qed.

Lemma endswith_false s suffix :
  Py.endswith s suffix = false ↔ ¬ Py.suffix_of suffix s.
Proof. rewrite <-endswith_spec. by destruct (Py.endswith s suffix). Qed.

(** The loop of lines 75-77 returns the first entry that ends in [.shp]. *)
Lemma first_shp_Some before file after :
  Forall (λ f, ¬ Py.suffix_of ".shp" f) before →
  Py.suffix_of ".shp" file →
  first_shp (before ++ file :: after) = Some file.
Proof.
  intros Hbefore Hfile. induction Hbefore as [|f before Hf _ IH]; cbn.
  - apply endswith_spec in Hfile. by rewrite Hfile.
  - apply endswith_false in Hf. by rewrite Hf.
Qed.

Lemma first_shp_None files :
  Forall (λ f, ¬ Py.suffix_of ".shp" f) files → first_shp files = None.
Proof.
  intros Hall. induction Hall as [|f files Hf _ IH]; [done|].
  cbn. apply endswith_false in Hf. by rewrite Hf.
Qed.

Lemma first_shp_elem files file :
  first_shp files = Some file → file ∈ files.
Proof.
  induction files as [|f files IH]; [done|]. cbn.
  destruct (Py.endswith f ".shp").
  - intros [= ->]. by left.
  - intros ?. right. by apply IH.
Qed.

(** [os.path.dirname] and [os.path.join] on a working directory
    [dir/leaf]: the parent is [dir], and a file name joined to it is
    [dir/name]. *)
Lemma head_part_no_sep p : OsPath.has_sep p = false → OsPath.head_part p = "".
Proof. destruct p as [|c p]; [done|]. cbn [OsPath.head_part]. by intros ->. Qed.

Lemma has_sep_app dir p : OsPath.has_sep (dir +:+ "/" +:+ p) = true.
Proof.
  induction dir as [|c dir IH]; [done|].
  rewrite string_app_cons. cbn [OsPath.has_sep]. rewrite IH. apply orb_true_r.
Qed.

Lemma head_part_app dir leaf :
  OsPath.has_sep leaf = false →
  OsPath.head_part (dir +:+ "/" +:+ leaf) = dir +:+ "/".
Proof.
  intros Hleaf. induction dir as [|c dir IH].
  - change (OsPath.head_part (String OsPath.sep leaf) = "/").
    cbn [OsPath.head_part OsPath.has_sep].
    rewrite bool_decide_eq_true_2 by done. cbn [orb].
    by rewrite head_part_no_sep.
  - rewrite !(string_app_cons c dir). cbn [OsPath.head_part].
    rewrite <-(string_app_cons c dir), has_sep_app. by rewrite IH.
Qed.

Lemma rstrip_sep_app dir :
  dir ≠ "" → Py.endswith dir "/" = false →
  OsPath.rstrip_sep (dir +:+ "/") = dir ∧ OsPath.all_sep (dir +:+ "/") = false.
Proof.
  induction dir as [|c dir IH]; [done|]. intros _.
  cbn [Py.endswith]. rewrite orb_false_iff, bool_decide_eq_false.
  intros [Hne Hend]. rewrite string_app_cons.
  cbn [OsPath.rstrip_sep OsPath.all_sep].
  destruct dir as [|c' dir].
  - assert (c ≠ OsPath.sep) by (by intros ->).
    change ("" +:+ "/") with "/".
    rewrite !(bool_decide_eq_false_2 (c = OsPath.sep)) by done. done.
  - assert (String c' dir ≠ "") as Hdir by done.
    destruct (IH Hdir Hend) as [-> ->].
    split; [|apply andb_false_r].
    rewrite (bool_decide_eq_false_2 (String c' dir = "")) by done.
    by rewrite andb_false_r.
Qed.

Lemma dirname_app dir leaf :
  dir ≠ "" → Py.endswith dir "/" = false → OsPath.has_sep leaf = false →
  OsPath.dirname (dir +:+ "/" +:+ leaf) = dir.
Proof.
  intros Hdir Hend Hleaf. unfold OsPath.dirname.
  rewrite head_part_app by done.
  destruct (rstrip_sep_app dir Hdir Hend) as [-> ->].
  rewrite bool_decide_eq_true_2; [done|]. by destruct dir.
Qed.

Lemma join_app dir name :
  dir ≠ "" → Py.endswith dir "/" = false → String.prefix "/" name = false →
  OsPath.join dir name = dir +:+ "/" +:+ name.
Proof.
  intros Hdir Hend Hname. unfold OsPath.join.
  by rewrite Hname, Hend, bool_decide_eq_false_2.
Qed.

(** C7.  The locator returns a path for every base name and every state of
    the directory, trying in this order and stopping at the first hit: the
    name with its extension, if that exists; the same name in the parent of
    the working directory, if that exists; the first entry of the working
    directory's listing that ends in [.shp]; the name with its extension,
    whether it exists or not.  For a working directory [dir/leaf] the
    second candidate is [dir/name]. *)
Theorem C7_find_shapefile_order env base_name :
  let name := base_name +:+ ".shp" in
  let in_parent := OsPath.join (OsPath.dirname (getcwd env)) name in
  (path_exists env name = true → find_shapefile env base_name = name) ∧
  (path_exists env name = false → path_exists env in_parent = true →
   find_shapefile env base_name = in_parent) ∧
  (path_exists env name = false → path_exists env in_parent = false →
   ∀ before file after,
     listdir env = before ++ file :: after →
     Forall (λ f, ¬ Py.suffix_of ".shp" f) before →
     Py.suffix_of ".shp" file →
     find_shapefile env base_name = file) ∧
  (path_exists env name = false → path_exists env in_parent = false →
   Forall (λ f, ¬ Py.suffix_of ".shp" f) (listdir env) →
   find_shapefile env base_name = name) ∧
  (find_shapefile env base_name = name ∨
   find_shapefile env base_name = in_parent ∨
   find_shapefile env base_name ∈ listdir env) ∧
  (∀ dir leaf,
     getcwd env = dir +:+ "/" +:+ leaf →
     dir ≠ "" → Py.endswith dir "/" = false → OsPath.has_sep leaf = false →
     String.prefix "/" name = false →
     in_parent = dir +:+ "/" +:+ name).
Proof.
  intros name in_parent. unfold find_shapefile. fold name. fold in_parent.
  split_and!.
  - by intros ->.
  - by intros -> ->.
  - intros -> -> before file after -> Hbefore Hfile.
    by rewrite first_shp_Some.
  - intros -> -> Hall. by rewrite first_shp_None.
  - destruct (path_exists env name); [by left|].
    destruct (path_exists env in_parent); [by right; left|].
    destruct (first_shp (listdir env)) as [file|] eqn:Hfirst; [|by left].
    right; right. by apply first_shp_elem.
  - intros dir leaf Hcwd Hdir Hend Hleaf Hname. unfold in_parent.
    rewrite Hcwd, dirname_app by done. by apply join_app.
Qed.

End locator.

(** ** The properties at work on the sample tables *)

(** A closed membership or inequality, by evaluation. *)
Ltac by_eval :=
  match goal with |- ?P => apply (bool_decide_unpack P) end;
  vm_compute; exact I.

(** C1 on the label of the scenario, and on a feature without a label. *)
Lemma C1_witness :
  fillColor (style_function "Adaptation"
               {[ "Adaptation" := VStr "Highly Suitable (3)" ]}) = "#4dff4d" ∧
  fillColor (style_function "Mitigation" ∅) = "#808080".
Proof.
  destruct (C1_color_is_function_of_label_text "Highly Suitable (3)")
    as (_ & Hstyle & Hmissing & _).
  split.
  - assert (({[ "Adaptation" := VStr "Highly Suitable (3)" ]}
               : gmap string value) !! "Adaptation"
            = Some (VStr "Highly Suitable (3)")) as Hl
      by (vm_compute; reflexivity).
    destruct (Hstyle _ _ Hl) as [[_ Hc]|[[Hn _]|[Hn _]]].
    + exact Hc.
    + exfalso. apply Hn, contains_spec. vm_compute. reflexivity.
    + exfalso. apply Hn, contains_spec. vm_compute. reflexivity.
  - apply Hmissing. left. vm_compute. reflexivity.
Defined.

(** C2 on the table with two states: Pune in Maharashtra. *)
Lemma C2_witness :
  ∃ subset,
    region_filter Sample.three_gdf "Maharashtra" "Pune" = Ok subset ∧
    rows subset = [Sample.pune].
Proof.
  destruct (C2_region_filter_exact Sample.three_gdf) as [Hexact _].
  destruct (Hexact "Maharashtra" "Pune") as (subset & Hrun & _ & Hrows & _).
  - right. by_eval.
  - right. by_eval.
  - exists subset. split; [exact Hrun|]. rewrite Hrows. vm_compute. reflexivity.
Defined.

(** C3 on the table with two states: the districts of Maharashtra. *)
Lemma C3_witness :
  ∃ offered,
    offered_districts Sample.three_gdf "Maharashtra" = Ok offered ∧
    Spec.district_list Sample.three_gdf
      (λ r, cell "NAME_1" r = VStr "Maharashtra") (λ d, d ≠ "nan") offered.
Proof.
  destruct (C3_district_options Sample.three_gdf
              ["All States"; "Goa"; "Maharashtra"] "Maharashtra")
    as (offered & Hrun & Hstate & _).
  - vm_compute. reflexivity.
  - by_eval.
  - exists offered. split; [exact Hrun|]. apply Hstate. discriminate.
Defined.

(** C3 as stated fails on a district named [nan]: Goa is offered as a state,
    its only record has the district name [nan], and no district is offered. *)
Lemma C3_counterexample :
  states Sample.nan_gdf = Ok ["All States"; "Goa"] ∧
  offered_districts Sample.nan_gdf "Goa" = Ok ["All Districts"] ∧
  ¬ Spec.district_list Sample.nan_gdf
      (λ r, cell "NAME_1" r = VStr "Goa") (λ _, True) ["All Districts"].
Proof.
  split_and!; [vm_compute; reflexivity..|].
  intros (names & Hoffered & _ & _ & Hnames).
  injection Hoffered as <-.
  apply (not_elem_of_nil "nan"), Hnames. split_and!; [by_eval|exact I|].
  eexists. split_and!; [apply list_elem_of_here|..]; vm_compute; reflexivity.
Qed.

(** C4 on the record of Pune: 1.8 degrees wide, 1.3 degrees high. *)
Lemma C4_witness :
  ∃ z, @zoom _ Sample.exact Sample.pune_gdf = Ok z ∧ z = 7%Z.
Proof.
  destruct (@C4_zoom_heuristic _ Sample.exact Sample.pune_gdf
              (FNum (Sample.q 733 10)) (FNum (Sample.q 18 1))
              (FNum (Sample.q 751 10)) (FNum (Sample.q 193 10)))
    as (z & Hrun & _ & _ & Hdefault & _).
  - reflexivity.
  - exists z. split; [exact Hrun|]. apply Hdefault.
    + intros [H|H]; vm_compute in H; discriminate H.
    + intros [H|H]; vm_compute in H; discriminate H.
Defined.

(** C5 on a table without records, with a library whose bounds always
    fail: the notice is written and nothing is raised. *)
Lemma C5_witness :
  let empty_gdf : GeoDataFrame Sample.box :=
    {| columns := Sample.all_columns; rows := [] |} in
  let env := Sample.env ["Solar_Suitability_layer.shp"]
               ["Solar_Suitability_layer.shp"] empty_gdf in
  let choice := {| state_choice := 0; district_choice := 0; category_choice := 0 |} in
  @map_column _ Sample.no_bounds empty_gdf "All Districts" "Adaptation"
  = Ui [ st_header "Solar Suitability Map";
         st_warning "No data available for the selected filters." ]
       (Ok ()) ∧
  outcome (@script _ Sample.no_bounds env choice) = Ok ().
Proof.
  intros empty_gdf env choice.
  destruct (@C5_empty_subset_no_data _ Sample.no_bounds env choice empty_gdf
              empty_gdf "All Districts" "Adaptation")
    as (Hmap & Hrun & _).
  - vm_compute. reflexivity.
  - vm_compute. reflexivity.
  - reflexivity.
  - split; [exact Hmap|exact Hrun].
Defined.

(** C6 on a table whose only record has a null geometry, everything
    selected: its centroid has [nan] coordinates, the centre is
    [(nan, nan)] and the run ends on the error page. *)
Lemma C6_witness :
  let env := Sample.env_of Sample.null_gdf in
  let choice := {| state_choice := 0; district_choice := 0; category_choice := 0 |} in
  @center _ Sample.nullable Sample.null_gdf = Ok (FNaN, FNaN) ∧
  ∃ msg,
    @map_column _ Sample.nullable Sample.null_gdf "All Districts" "Adaptation"
    = Ui [st_header "Solar Suitability Map"] (Raise (ValueError msg)) ∧
    st_error ("Error: " +:+ msg) ∈ page (@script _ Sample.nullable env choice).
Proof.
  intros env choice.
  destruct (@C6_nan_center_not_caught _ Sample.nullable env choice
              Sample.null_gdf Sample.null_gdf "All Districts" "Adaptation"
              [(FNaN, FNaN)] (FNaN, FNaN, FNaN, FNaN))
    as (Hc & _ & msg & Hmap & Herr & _).
  - reflexivity.
  - vm_compute. reflexivity.
  - discriminate.
  - reflexivity.
  - reflexivity.
  - reflexivity.
  - split; [exact Hc|]. exists msg. split; [exact Hmap|exact Herr].
Defined.

(** C7 in a directory that holds two shapefiles under other names. *)
Lemma C7_witness :
  find_shapefile (Sample.env [] ["notes.txt"; "b.shp"; "c.shp"] Sample.pune_gdf)
    "Solar_Suitability_layer" = "b.shp" ∧
  find_shapefile
    (Sample.env ["/srv/Solar_Suitability_layer.shp"] ["b.shp"] Sample.pune_gdf)
    "Solar_Suitability_layer" = "/srv/Solar_Suitability_layer.shp".
Proof.
  split.
  - destruct (C7_find_shapefile_order
                (Sample.env [] ["notes.txt"; "b.shp"; "c.shp"] Sample.pune_gdf)
                "Solar_Suitability_layer") as (_ & _ & Hfirst & _).
    apply (Hfirst ltac:(reflexivity) ltac:(reflexivity) ["notes.txt"] "b.shp" ["c.shp"]).
    + reflexivity.
    + constructor; [|constructor].
      apply endswith_false. vm_compute. reflexivity.
    + apply endswith_spec. vm_compute. reflexivity.
  - destruct (C7_find_shapefile_order
                (Sample.env ["/srv/Solar_Suitability_layer.shp"] ["b.shp"]
                   Sample.pune_gdf)
                "Solar_Suitability_layer") as (_ & Hparent & _).
    apply Hparent; vm_compute; reflexivity.
Defined.



(** C9 on the scenario of the specification: one record, Pune in
    Maharashtra, selected by that state and district. *)
Lemma C9_witness :
  let choice := {| state_choice := 1; district_choice := 1; category_choice := 0 |} in
  outcome (controls Sample.pune_gdf choice)
  = Ok (Sample.pune_gdf, "Pune", "Adaptation") ∧
  page (district_details Sample.pune_gdf "Pune")
  = [ st_subheader "Details for Pune";
      st_write "**Adaptation:** Highly Suitable (3)" ] ∧
  Spec.detail_panel Sample.pune_gdf "Pune" (λ text, text ≠ "nan")
    (page (district_details Sample.pune_gdf "Pune")).
Proof.
  intros choice.
  destruct (C9_detail_panel Sample.pune_gdf "Pune")
    as (_ & Hpanel & _).
  - discriminate.
  - discriminate.
  - split_and!; [vm_compute; reflexivity..|exact Hpanel].
Defined.

(** C9 as stated fails on a label that is the text [nan]: the first record
    holds the text [nan] as its adaptation label, a value that is present
    and not null, and the panel has no line for it. *)
Lemma C9_counterexample :
  outcome (controls Sample.nan_label_gdf
             {| state_choice := 1; district_choice := 1; category_choice := 0 |})
  = Ok (Sample.nan_label_gdf, "Pune", "Adaptation") ∧
  page (district_details Sample.nan_label_gdf "Pune")
  = [ st_subheader "Details for Pune";
      st_write "**Mitigation:** Highly Suitable (3)" ] ∧
  ¬ Spec.detail_panel Sample.nan_label_gdf "Pune" (λ _, True)
      (page (district_details Sample.nan_label_gdf "Pune")).
Proof.
  split_and!; [vm_compute; reflexivity..|].
  intros (first & rest & lines & Hrows & Hshown & Hlines).
  injection Hrows as <- <-. vm_compute in Hshown. injection Hshown as <-.
  assert ((st_write "**Adaptation:** nan" : widget Sample.box)
          ∈ [st_write "**Mitigation:** Highly Suitable (3)"]) as Hin.
  { apply Hlines. exists "Adaptation", "Adaptation", "nan".
    split_and!; [by_eval|by_eval|vm_compute; reflexivity|exact I|reflexivity]. }
  apply list_elem_of_singleton in Hin. discriminate Hin.
Qed.

(** C10 on the record of Pune: its feature is filled in the colour of the
    legend entry of its label. *)
Lemma C10_witness :
  fillColor (style_function "Adaptation"
               (properties (to_feature (columns Sample.pune_gdf) Sample.pune)))
  = legend_color (VStr "Highly Suitable (3)") ∧
  legend_color (VStr "Highly Suitable (3)") = "#4dff4d".
Proof.
  destruct (@C10_legend_and_style_agree Sample.box "Highly Suitable (3)"
              "Adaptation") as [_ Hfeature].
  split; [|reflexivity].
  apply (Hfeature Sample.pune_gdf Sample.pune).
  - by_eval.
  - vm_compute. reflexivity.
Defined.

(** * Further properties of the script *)

(** ** The top-level handler (lines 236-262) and the run as a whole *)

Section handler.
Context {geometry : Type} `{!GeoLib geometry}.
Implicit Types env : Env geometry.
Implicit Types gdf filtered_gdf : GeoDataFrame geometry.

(** A run whose loader raises is the handler's report. *)
Lemma script_load_failure env choice e :
  read_file env (find_shapefile env "Solar_Suitability_layer") = Raise e →
  script env choice = troubleshooting env e.
Proof.
  intros Hread. unfold script. rewrite Hread, bind_lift_Raise. unfold ui_try.
  cbn [outcome page app]. apply ui_eta.
Qed.

(** X2.  When the loader raises, nothing of the page proper is written: no
    success notice, no controls, no legend, no map.  The page is the
    handler's report, headed by the error message with the cause, followed
    by the working directory and its listing. *)
Theorem X2_load_failure_page env choice e :
  read_file env (find_shapefile env "Solar_Suitability_layer") = Raise e →
  script env choice = troubleshooting env e ∧
  ∃ report,
    page (script env choice)
    = [ st_error ("Error: " +:+ exn_str e);
        st_subheader "Troubleshooting Information";
        st_write ("Current working directory: " +:+ getcwd env);
        st_write "Files in current directory:";
        st_write_list (listdir env) ] ++ report ∧
    ∀ w, w ∈ report →
         (∃ body, w = st_write body) ∨ (∃ body, w = st_write_list body) ∨
         (∃ body, w = st_warning body).
Proof.
  intros Hread.
  pose proof (script_load_failure env choice e Hread) as Hrun.
  split; [done|]. rewrite Hrun, troubleshooting_page. cbn [page].
  eexists. split; [done|].
  intros w. rewrite elem_of_app.
  intros [Hw|Hw]; revert Hw; cbv zeta; case_bool_decide;
    rewrite ?elem_of_cons, ?elem_of_nil; intros Hw; destruct_or?; subst; eauto.
Qed.

(** X4.  The handler's report sorts the four companion files of the
    shapefile (geometry, attributes, index, projection) into those that
    exist and those that do not: every one of the four is named exactly
    once, under "Found" when it exists and under "Missing" when it does
    not, each group in the order [.shp], [.dbf], [.shx], [.prj]; a group
    without a file is not written at all. *)
Theorem X4_component_report env e :
  let components :=
    [ "Solar_Suitability_layer.shp"; "Solar_Suitability_layer.dbf";
      "Solar_Suitability_layer.shx"; "Solar_Suitability_layer.prj" ] in
  ∃ found missing,
    found ++ missing ≡ₚ components ∧
    sublist found components ∧
    sublist missing components ∧
    (∀ f, f ∈ found → path_exists env f = true) ∧
    (∀ f, f ∈ missing → path_exists env f = false) ∧
    page (troubleshooting env e)
    = [ st_error ("Error: " +:+ exn_str e);
        st_subheader "Troubleshooting Information";
        st_write ("Current working directory: " +:+ getcwd env);
        st_write "Files in current directory:";
        st_write_list (listdir env) ]
      ++ (if decide (found = []) then []
          else [st_write "Found shapefile components:"; st_write_list found])
      ++ (if decide (missing = []) then []
          else [st_warning "Missing shapefile components:"; st_write_list missing]).
Proof.
  intros components. rewrite troubleshooting_page. cbn [page]. cbv zeta.
  set (name := λ comp : string, "Solar_Suitability_layer" +:+ comp).
  set (exts := [".shp"; ".dbf"; ".shx"; ".prj"]).
  change components with (name <$> exts).
  exists (name <$> filter (λ comp, path_exists env (name comp)) exts),
         (name <$> filter (λ comp, ¬ path_exists env (name comp)) exts).
  split_and!.
  - rewrite <-fmap_app. apply fmap_Permutation, filter_app_complement.
  - apply fmap_sublist, sublist_filter.
  - apply fmap_sublist, sublist_filter.
  - intros f (comp & -> & [Hex _]%list_elem_of_filter)%list_elem_of_fmap.
    by apply Is_true_true.
  - intros f (comp & -> & [Hex _]%list_elem_of_filter)%list_elem_of_fmap.
    by apply Is_true_false.
  - do 2 f_equal; [|f_equal]; by case_bool_decide; case_decide.
Qed.

End handler.

(** ** The selection controls (lines 106-135) *)

Section selection.
Context {geometry : Type}.
Implicit Types gdf filtered_gdf subset : GeoDataFrame geometry.
Implicit Types r : Row geometry.

(** X5.  The state selector offers "All States" followed by the state
    names in ascending order without repetition: exactly the texts, other
    than [nan], that some record holds in [NAME_1]; on a table without
    that column there is no name.  Building the list never raises. *)
Theorem X5_state_options gdf :
  ∃ names,
    states gdf = Ok ("All States" :: names) ∧
    StronglySorted String.le names ∧
    NoDup names ∧
    ∀ s, s ∈ names ↔
         "NAME_1" ∈ columns gdf ∧ s ≠ "nan" ∧
         ∃ r, r ∈ rows gdf ∧ cell "NAME_1" r = VStr s.
Proof.
  unfold states. case_decide as Hc.
  - rewrite column_Ok by done. eexists. split_and!; [done|..].
    + apply sorted_sorted.
    + apply NoDup_sorted, NoDup_valid_names.
    + intros s. rewrite elem_of_sorted, elem_of_valid_names, elem_of_column.
      tauto.
  - exists []. split_and!; [done|constructor|constructor|].
    intros s. split; [by intros ?%elem_of_nil|]. by intros [? _].
Qed.

(** What the district selector offers comes from the records it was built
    from. *)
Lemma districts_elem gdf filtered_gdf selected_state district_options d :
  districts gdf filtered_gdf selected_state = Ok district_options →
  d ∈ district_options →
  d = "All Districts" ∨
  ("NAME_2" ∈ columns gdf ∧ d ≠ "nan" ∧
   ∃ r, r ∈ rows (if decide (selected_state ≠ "All States")
                  then filtered_gdf else gdf) ∧
        cell "NAME_2" r = VStr d).
Proof.
  unfold districts. case_decide as Hc.
  2: { intros [= <-] ->%list_elem_of_singleton. by left. }
  case_decide as Hs.
  - unfold column. case_decide; [|done]. cbn. intros [= <-] Hd.
    apply elem_of_cons in Hd as [->|Hd]; [by left|right].
    apply elem_of_sorted, elem_of_valid_names in Hd as [Hd ?].
    by apply elem_of_column in Hd.
  - rewrite column_Ok by done. cbn. intros [= <-] Hd.
    apply elem_of_cons in Hd as [->|Hd]; [by left|right].
    apply elem_of_sorted, elem_of_valid_names in Hd as [Hd ?].
    by apply elem_of_column in Hd.
Qed.

(** X6.  What the two select boxes offer always matches a record: after
    the controls column the subset is empty only if the loaded table has no
    record at all.  So the "No data available" notice is never the result
    of a selection on a table with records. *)
Theorem X6_selection_keeps_a_record gdf choice filtered_gdf selected_district
    selected_category :
  outcome (controls gdf choice)
  = Ok (filtered_gdf, selected_district, selected_category) →
  (rows filtered_gdf = [] ↔ rows gdf = []).
Proof.
  destruct (controls_spec gdf choice)
    as (state_names & selected_state & filtered_by_state & district_names &
        selected_district' & filtered_gdf' & selected_category' &
        Hstates & Hs & Hf1 & Hdistricts & Hd & Hf2 & Hcat & Hrun).
  rewrite Hrun. cbn [outcome]. intros [= <- <- <-].
  assert (selected_state ∈ "All States" :: state_names) as Hin1
    by (rewrite Hs; by apply (pick_elem ("All States" :: state_names))).
  assert (selected_district' ∈ "All Districts" :: district_names) as Hin2
    by (rewrite Hd; by apply (pick_elem ("All Districts" :: district_names))).
  destruct (offered_selection_filterable _ _ _ _ _ _ Hstates Hin1 Hdistricts Hin2)
    as [Hr1 Hr2].
  rewrite (filter_by_state_spec _ _ Hr1) in Hf1. injection Hf1 as <-.
  rewrite filter_by_district_spec in Hf2 by done. injection Hf2 as <-.
  cbn [rows]. split.
  - intros Hempty.
    destruct (districts_elem _ _ _ _ _ Hdistricts Hin2)
      as [Hall|(_ & _ & r & Hr & Hcell)].
    + rewrite filter_all in Hempty by (intros; by left).
      destruct (states_elem _ _ _ Hstates Hin1) as [Hall'|(_ & _ & r & Hr & Hcell)].
      * by rewrite filter_all in Hempty by (intros; by left).
      * exfalso. eapply (filter_nil_not_elem_of _ _ r Hempty); [by right|done].
    + exfalso. case_decide as Hsel; cbn [rows] in Hr.
      * eapply (filter_nil_not_elem_of _ _ r Hempty); [by right|done].
      * eapply (filter_nil_not_elem_of _ _ r Hempty); [by right|].
        apply list_elem_of_filter. split; [by left|done].
  - by intros ->.
Qed.

(** X7.  Selecting a state can only narrow the district options: every
    district offered under a selected state is also offered under
    "All States". *)
Theorem X7_state_narrows_districts gdf selected_state offered offered_all :
  offered_districts gdf selected_state = Ok offered →
  offered_districts gdf "All States" = Ok offered_all →
  ∀ d, d ∈ offered → d ∈ offered_all.
Proof.
  intros Hsel Hall d Hd.
  destruct (decide (selected_state = "All States")) as [->|Hne].
  { rewrite Hsel in Hall. by injection Hall as <-. }
  destruct (decide ("NAME_1" ∈ columns gdf)) as [Hc1|Hc1].
  2: { unfold offered_districts, filter_by_state, select_eq in Hsel.
       rewrite decide_True, column_Raise in Hsel by done. done. }
  rewrite offered_districts_state in Hsel by done.
  rewrite offered_districts_all in Hall.
  injection Hsel as <-. injection Hall as <-.
  case_decide as Hc2; [|done].
  apply elem_of_cons in Hd as [->|Hd]; [by left|right].
  apply elem_of_sorted, elem_of_valid_names.
  apply elem_of_sorted, elem_of_valid_names in Hd as [Hd Hnan].
  split; [|done]. apply elem_of_column.
  apply list_elem_of_fmap in Hd as (r & Hcell & [_ Hr]%list_elem_of_filter).
  by exists r.
Qed.

(** A region filter that does not raise was asked a question the table can
    answer. *)
Lemma region_filter_Ok_inv gdf selected_state selected_district subset :
  region_filter gdf selected_state selected_district = Ok subset →
  (selected_state = "All States" ∨ "NAME_1" ∈ columns gdf) ∧
  (selected_district = "All Districts" ∨ "NAME_2" ∈ columns gdf).
Proof.
  intros Hrun.
  assert (selected_state = "All States" ∨ "NAME_1" ∈ columns gdf) as Hr1.
  { destruct (decide (selected_state = "All States")); [by left|right].
    destruct (decide ("NAME_1" ∈ columns gdf)) as [|Hc]; [done|].
    unfold region_filter, filter_by_state, select_eq in Hrun.
    rewrite decide_True, column_Raise in Hrun by done. done. }
  split; [done|].
  destruct (decide (selected_district = "All Districts")); [by left|right].
  destruct (decide ("NAME_2" ∈ columns gdf)) as [|Hc]; [done|].
  unfold region_filter in Hrun. rewrite filter_by_state_spec in Hrun by done.
  cbn in Hrun. unfold filter_by_district, select_eq in Hrun.
  rewrite decide_True, column_Raise in Hrun by done. done.
Qed.

(** X8.  The region filter is idempotent: filtering its own result again by
    the same state and district returns that result unchanged. *)
Theorem X8_region_filter_idempotent gdf selected_state selected_district subset :
  region_filter gdf selected_state selected_district = Ok subset →
  region_filter subset selected_state selected_district = Ok subset.
Proof.
  intros Hrun. destruct (region_filter_Ok_inv _ _ _ _ Hrun) as [Hr1 Hr2].
  destruct (region_filter_exact gdf selected_state selected_district Hr1 Hr2)
    as (subset1 & Hrun1 & Hcols & Hrows & _).
  rewrite Hrun in Hrun1. injection Hrun1 as <-.
  destruct (region_filter_exact subset selected_state selected_district)
    as (subset2 & Hrun2 & Hcols2 & Hrows2 & _); [by rewrite Hcols..|].
  rewrite Hrun2. f_equal.
  destruct subset as [cols rs], subset2 as [cols2 rs2]; cbn in *.
  subst cols2. f_equal. rewrite Hrows2, Hrows.
  rewrite !list_filter_filter. apply list_filter_iff. intros r. tauto.
Qed.

(** X9.  With the first option picked in both select boxes (what a fresh
    session shows), nothing is filtered out: the controls column hands the
    loaded table on as it is, with "All Districts" selected, so the map
    column writes no detail panel. *)
Theorem X9_default_selection_shows_all gdf choice :
  state_choice choice = 0 → district_choice choice = 0 →
  ∃ selected_category,
    selected_category ∈ categories.*1 ∧
    outcome (controls gdf choice)
    = Ok (gdf, "All Districts", selected_category) ∧
    district_details gdf "All Districts" = Ui [] (Ok ()).
Proof.
  intros H1 H2.
  destruct (controls_spec gdf choice)
    as (state_names & selected_state & filtered_by_state & district_names &
        selected_district & filtered_gdf & selected_category &
        Hstates & Hs & Hf1 & Hdistricts & Hd & Hf2 & Hcat & Hrun).
  rewrite H1 in Hs. rewrite H2 in Hd. cbn in Hs, Hd. subst.
  injection Hf1 as <-. injection Hf2 as <-.
  exists selected_category. split_and!; [done|by rewrite Hrun|done].
Qed.

End selection.

(** ** The legend (lines 149-164) *)

Section legend_entries.
Context {geometry : Type}.
Implicit Types filtered_gdf : GeoDataFrame geometry.
Implicit Types r : Row geometry.

Lemma unique_app {A} `{EqDecision A} (l1 l2 : list A) :
  unique (l1 ++ l2) = unique l1 ++ filter (λ x, x ∉ l1) (unique l2).
Proof.
  induction l1 as [|a l1 IH].
  - cbn. symmetry. apply filter_all. intros x. apply not_elem_of_nil.
  - cbn [app unique]. rewrite IH, filter_app. f_equal. f_equal.
    rewrite list_filter_filter. apply list_filter_iff. intros x.
    rewrite not_elem_of_cons. tauto.
Qed.

Lemma valid_names_prefix (col more : list value) :
  valid_names col `prefix_of` valid_names (col ++ more).
Proof.
  unfold valid_names. rewrite unique_app, filter_app, fmap_app.
  by apply prefix_app_r.
Qed.

(** The legend's page in terms of the label texts. *)
Lemma legend_page filtered_gdf selected_category :
  page (legend filtered_gdf selected_category)
  = (λ label, st_markdown
                (legend_html (legend_color (VStr label)) (VStr label))) <$>
    (if decide (selected_category ∈ columns filtered_gdf)
     then valid_names (cell selected_category <$> rows filtered_gdf)
     else []).
Proof.
  rewrite legend_spec. cbn [page]. case_decide; [|done].
  unfold valid_names. rewrite <-list_fmap_compose.
  apply Forall_fmap_ext_1, Forall_forall.
  intros v [Hv _]%list_elem_of_filter.
  by apply Is_true_true, not_missing_str in Hv as (label & -> & _).
Qed.

(** X10.  The legend never raises and has one entry for each distinct label
    of the selected category in the subset, without repetition: exactly
    the texts, other than [nan], that some record of the subset holds in
    that column.  Each entry shows the label with the colour of its class.
    A category that is not a column, or a subset without labels, gives an
    empty legend. *)
Theorem X10_legend_entries filtered_gdf selected_category :
  outcome (legend filtered_gdf selected_category) = Ok () ∧
  ∃ labels,
    NoDup labels ∧
    page (legend filtered_gdf selected_category)
    = (λ label, st_markdown
                  (legend_html (legend_color (VStr label)) (VStr label))) <$>
      labels ∧
    ∀ label, label ∈ labels ↔
             selected_category ∈ columns filtered_gdf ∧ label ≠ "nan" ∧
             ∃ r, r ∈ rows filtered_gdf ∧ cell selected_category r = VStr label.
Proof.
  split; [by rewrite legend_spec|].
  rewrite legend_page. eexists. split_and!; [|done|].
  - case_decide; [apply NoDup_valid_names|constructor].
  - intros label. case_decide as Hc.
    + rewrite elem_of_valid_names, elem_of_column. tauto.
    + split; [by intros ?%elem_of_nil|]. by intros [? _].
Qed.

(** X11.  The legend lists the labels in the order in which they first
    occur in the subset: when records are added after those of a subset,
    the legend of the longer subset begins with the legend of the shorter
    one. *)
Theorem X11_legend_first_seen_order filtered_gdf longer_gdf more
    selected_category :
  columns longer_gdf = columns filtered_gdf →
  rows longer_gdf = rows filtered_gdf ++ more →
  page (legend filtered_gdf selected_category)
  `prefix_of` page (legend longer_gdf selected_category).
Proof.
  intros Hcols Hrows. rewrite !legend_page, Hcols, Hrows.
  case_decide; [|done].
  rewrite fmap_app. destruct (valid_names_prefix
    (cell selected_category <$> rows filtered_gdf)
    (cell selected_category <$> more)) as [k ->].
  rewrite fmap_app. by eexists.
Qed.

(** X12.  The legend explains the map: a record of the subset whose label
    in the selected category is a text other than [nan] has a legend entry
    that shows this label in the very colour its feature is filled with;
    and every legend entry is the colour and label of the feature of some
    record of the subset. *)
Theorem X12_legend_explains_map filtered_gdf selected_category :
  selected_category ∈ columns filtered_gdf →
  (∀ r label,
     r ∈ rows filtered_gdf →
     cell selected_category r = VStr label → label ≠ "nan" →
     st_markdown
       (legend_html
          (fillColor (style_function selected_category
                        (properties (to_feature (columns filtered_gdf) r))))
          (VStr label))
     ∈ page (legend filtered_gdf selected_category)) ∧
  (∀ w, w ∈ page (legend filtered_gdf selected_category) →
        ∃ r label,
          r ∈ rows filtered_gdf ∧
          cell selected_category r = VStr label ∧
          w = st_markdown
                (legend_html
                   (fillColor (style_function selected_category
                                 (properties (to_feature (columns filtered_gdf) r))))
                   (VStr label))).
Proof.
  intros Hc.
  assert (∀ r label, cell selected_category r = VStr label →
            fillColor (style_function selected_category
                         (properties (to_feature (columns filtered_gdf) r)))
            = legend_color (VStr label)) as Hfill.
  { intros r label Hcell. apply style_function_legend_color; [|done].
    rewrite properties_to_feature, decide_True by done. by rewrite Hcell. }
  rewrite legend_page, decide_True by done. split.
  - intros r label Hr Hcell Hnan. rewrite (Hfill _ _ Hcell).
    apply list_elem_of_fmap. exists label. split; [done|].
    apply elem_of_valid_names. split; [|done].
    apply elem_of_column. by exists r.
  - intros w (label & -> & Hlabel)%list_elem_of_fmap.
    apply elem_of_valid_names in Hlabel as [(r & Hr & Hcell)%elem_of_column _].
    exists r, label. by rewrite (Hfill _ _ Hcell).
Qed.

End legend_entries.

(** ** Styles (lines 194-206) and the zoom (lines 185-189) *)

Section styles.

(** X15.  Whatever the feature and the category, [style_function] varies
    the fill colour only: the outline is black with weight 1, the opacity
    0.7, and the fill is one of the three colours green, yellow and grey,
    as is the colour of every legend entry. *)
Theorem X15_styles_differ_in_fill_only (selected_category : string)
    (properties : gmap string value) (v : value) :
  color (style_function selected_category properties) = "black" ∧
  weight (style_function selected_category properties) = 1%Z ∧
  fillOpacity (style_function selected_category properties) = opacity_0_7 ∧
  fillColor (style_function selected_category properties)
  ∈ ["#4dff4d"; "#ffeb3b"; "#808080"] ∧
  legend_color v ∈ ["#4dff4d"; "#ffeb3b"; "#808080"].
Proof.
  unfold style_function, legend_color.
  split_and!; repeat case_match; cbn; try done; in_page.
Qed.

(** X16.  The zoom heuristic treats the two spans alike (swapping latitude
    and longitude span gives the same zoom) and only ever yields 6, 7 or
    9; a span that is [nan] decides nothing, the other span alone then
    choosing between 6, 9 and 7. *)
Theorem X16_zoom_level_symmetric (lat_diff lon_diff : float) :
  zoom_level lat_diff lon_diff = zoom_level lon_diff lat_diff ∧
  zoom_level lat_diff lon_diff ∈ [6%Z; 7%Z; 9%Z] ∧
  zoom_level FNaN lon_diff
  = (if float_gt lon_diff (float_of_Z 3) then 6
     else if float_lt lon_diff (float_of_Z 1) then 9 else 7)%Z.
Proof.
  unfold zoom_level. split_and!.
  - by rewrite (orb_comm (float_gt lat_diff _)), (orb_comm (float_lt lat_diff _)).
  - repeat case_match; in_page.
  - done.
Qed.

End styles.

(** ** The locator (lines 63-80), once more *)

Section locator_suffix.
Context {geometry : Type}.
Implicit Types env : Env geometry.

Lemma suffix_of_app (suffix pre s : string) :
  Py.suffix_of suffix s → Py.suffix_of suffix (pre +:+ s).
Proof.
  intros [pre' ->]. exists (pre +:+ pre'). by rewrite string_app_assoc.
Qed.

Lemma join_suffix (suffix a b : string) :
  Py.suffix_of suffix b → Py.suffix_of suffix (OsPath.join a b).
Proof.
  intros Hb. unfold OsPath.join. repeat case_match; [done|..].
  - by apply suffix_of_app.
  - by do 2 apply suffix_of_app.
Qed.

Lemma first_shp_suffix (files : list string) file :
  first_shp files = Some file → Py.suffix_of ".shp" file.
Proof.
  induction files as [|f files IH]; [done|]. cbn.
  destruct (Py.endswith f ".shp") eqn:Hf; [|done].
  intros [= <-]. by apply endswith_spec.
Qed.

(** X17.  Whatever the directory holds, the path the locator returns ends
    in [.shp]: the loader is never handed a file of another kind. *)
Theorem X17_located_path_ends_in_shp env (base_name : string) :
  Py.suffix_of ".shp" (find_shapefile env base_name) ∧
  Py.endswith (find_shapefile env base_name) ".shp" = true.
Proof.
  assert (Py.suffix_of ".shp" (find_shapefile env base_name)) as Hsuffix.
  { assert (Py.suffix_of ".shp" (base_name +:+ ".shp")) by (by exists base_name).
    unfold find_shapefile. repeat case_match; try done.
    - by apply join_suffix.
    - by eapply first_shp_suffix. }
  split; [done|]. by apply endswith_spec.
Qed.

End locator_suffix.

(** ** The detail panel (lines 223-232), once more *)

Section detail_order.
Context {geometry : Type} `{!GeoLib geometry}.
Implicit Types filtered_gdf : GeoDataFrame geometry.
Implicit Types env : Env geometry.
Implicit Types r : Row geometry.

Lemma bind_if_singleton {A B} (P : A → Prop) `{∀ x, Decision (P x)}
    (g : A → B) (l : list A) :
  (l ≫= λ x, if decide (P x) then [g x] else []) = g <$> filter P l.
Proof.
  induction l as [|x l IH]; [done|]. cbn [mbind list_bind].
  change (list_bind _ _ ?f l) with (l ≫= f).
  destruct (decide (P x)).
  - by rewrite filter_cons_True, IH.
  - by rewrite filter_cons_False, IH.
Qed.

(** X18.  The detail panel lists the categories in the fixed order
    Adaptation, Mitigation, Replacement, General SI, each at most once: its
    lines are the lines of a sub-sequence of the four categories, namely of
    those that are columns of the table and hold a text other than [nan] in
    the first record.  Nothing of any later record is read: two subsets
    with the same columns and the same first record give the same panel. *)
Theorem X18_detail_lines_in_category_order filtered_gdf selected_district
    r rest :
  selected_district ≠ "All Districts" →
  rows filtered_gdf = r :: rest →
  (∃ shown,
     sublist shown categories ∧
     page (district_details filtered_gdf selected_district)
     = st_subheader ("Details for " +:+ selected_district)
       :: ((λ '(category, display_name),
              st_write ("**" +:+ display_name +:+ ":** " +:+ str (cell category r)))
           <$> shown) ∧
     ∀ category display_name,
       (category, display_name) ∈ shown ↔
       (category, display_name) ∈ categories ∧
       category ∈ columns filtered_gdf ∧
       not_missing (cell category r) = true) ∧
  (∀ other_gdf rest',
     columns other_gdf = columns filtered_gdf →
     rows other_gdf = r :: rest' →
     district_details other_gdf selected_district
     = district_details filtered_gdf selected_district).
Proof.
  intros Hd Hrows.
  set (P := λ p : string * string,
         p.1 ∈ columns filtered_gdf ∧ not_missing (cell p.1 r) = true).
  assert (detail_lines filtered_gdf r
          = (λ '(category, display_name),
               st_write ("**" +:+ display_name +:+ ":** " +:+ str (cell category r)))
            <$> filter P categories) as Hlines.
  { unfold detail_lines. rewrite <-bind_if_singleton.
    apply list_bind_ext; [|done]. intros [category display_name].
    unfold P. cbn [fst]. case_decide as Hc.
    - destruct (not_missing (cell category r)) eqn:Hm.
      + by rewrite decide_True.
      + rewrite decide_False; [done|]. by intros [_ ?].
    - rewrite decide_False; [done|]. by intros [? _]. }
  split.
  - exists (filter P categories). split_and!.
    + apply sublist_filter.
    + rewrite (district_details_first _ _ _ _ Hd Hrows). cbn [page].
      by rewrite Hlines.
    + intros category display_name. rewrite list_elem_of_filter.
      unfold P. cbn [fst]. tauto.
  - intros other_gdf rest' Hcols Hrows'.
    rewrite (district_details_first _ _ _ _ Hd Hrows),
      (district_details_first _ _ _ _ Hd Hrows').
    unfold detail_lines. by rewrite Hcols.
Qed.

(** X19.  Whenever the loader succeeds, the page begins with the notice
    "Successfully loaded shapefile with N features", N being the number of
    records of the whole loaded table, whatever is selected afterwards and
    also when the run later ends in the error report. *)
Theorem X19_success_notice_first env choice gdf :
  read_file env (find_shapefile env "Solar_Suitability_layer") = Ok gdf →
  ∃ more,
    page (script env choice)
    = st_success ("Successfully loaded shapefile with "
                  +:+ pretty (length (rows gdf)) +:+ " features")
      :: page (controls gdf choice) ++ more.
Proof.
  intros Hread.
  destruct (controls_spec gdf choice)
    as (? & ? & ? & ? & d & f & c & _ & _ & _ & _ & _ & _ & _ & Hrun).
  assert (outcome (controls gdf choice) = Ok (f, d, c)) as Hctl
    by (by rewrite Hrun).
  rewrite (script_run _ _ _ _ _ _ Hread Hctl).
  destruct (outcome (map_column f d c)); cbn [page].
  - by eexists.
  - rewrite <-app_comm_cons, <-app_assoc. by eexists.
Qed.

End detail_order.

(** ** The further properties at work on the sample tables *)

(** X2 in a directory without the shapefile. *)
Lemma X2_witness :
  let choice := {| state_choice := 0; district_choice := 0; category_choice := 0 |} in
  head (page (@script _ Sample.exact Sample.no_file_env choice))
  = Some (st_error "Error: Solar_Suitability_layer.shp: No such file or directory") ∧
  length (page (@script _ Sample.exact Sample.no_file_env choice)) = 7.
Proof.
  intros choice.
  destruct (@X2_load_failure_page _ Sample.exact Sample.no_file_env choice
              (Exception "Solar_Suitability_layer.shp: No such file or directory"))
    as [-> _].
  - vm_compute. reflexivity.
  - split; vm_compute; reflexivity.
Defined.

(** X6 on the table with two states, Goa and its district picked. *)
Lemma X6_witness :
  match outcome (controls Sample.three_gdf
                   {| state_choice := 1; district_choice := 1;
                      category_choice := 0 |}) with
  | Ok (filtered_gdf, selected_district, _) =>
      selected_district = "North Goa" ∧ rows filtered_gdf ≠ []
  | Raise _ => False
  end.
Proof.
  destruct (outcome (controls Sample.three_gdf _))
    as [[[filtered_gdf selected_district] selected_category]|e] eqn:Hctl.
  - split.
    + vm_compute in Hctl. by injection Hctl as _ <- _.
    + intros Hempty.
      apply (X6_selection_keeps_a_record _ _ _ _ _ Hctl) in Hempty.
      discriminate Hempty.
  - vm_compute in Hctl. discriminate Hctl.
Defined.

(** X7 on the table with two states: Pune is offered under Maharashtra and
    under "All States". *)
Lemma X7_witness :
  "Pune" ∈ ["All Districts"; "Ahmednagar"; "North Goa"; "Pune"].
Proof.
  apply (X7_state_narrows_districts Sample.three_gdf "Maharashtra"
           ["All Districts"; "Ahmednagar"; "Pune"]).
  - vm_compute. reflexivity.
  - vm_compute. reflexivity.
  - by_eval.
Defined.

(** X8 on the table with two states. *)
Lemma X8_witness :
  match region_filter Sample.three_gdf "Maharashtra" "Pune" with
  | Ok subset =>
      rows subset = [Sample.pune] ∧
      region_filter subset "Maharashtra" "Pune" = Ok subset
  | Raise _ => False
  end.
Proof.
  destruct (region_filter Sample.three_gdf "Maharashtra" "Pune")
    as [subset|e] eqn:Hrun.
  - split.
    + vm_compute in Hrun. by injection Hrun as <-.
    + by apply (X8_region_filter_idempotent Sample.three_gdf).
  - vm_compute in Hrun. discriminate Hrun.
Defined.

(** X9 on the table with two states. *)
Lemma X9_witness :
  ∃ selected_category,
    outcome (controls Sample.three_gdf
               {| state_choice := 0; district_choice := 0; category_choice := 2 |})
    = Ok (Sample.three_gdf, "All Districts", selected_category).
Proof.
  destruct (X9_default_selection_shows_all Sample.three_gdf
              {| state_choice := 0; district_choice := 0; category_choice := 2 |})
    as (selected_category & _ & Hrun & _).
  - reflexivity.
  - reflexivity.
  - by exists selected_category.
Defined.

(** X11: the legend of the scenario's record begins the legend of the
    table that continues with three more records. *)
Lemma X11_witness :
  page (legend Sample.pune_gdf "Adaptation")
  `prefix_of` page (legend Sample.three_gdf "Adaptation").
Proof.
  apply (X11_legend_first_seen_order Sample.pune_gdf Sample.three_gdf
           (tail (rows Sample.three_gdf))).
  - reflexivity.
  - reflexivity.
Defined.

(** X12 on the scenario's record: a green legend entry for its label. *)
Lemma X12_witness :
  (st_markdown (legend_html "#4dff4d" (VStr "Highly Suitable (3)"))
   : widget Sample.box)
  ∈ page (legend Sample.pune_gdf "Adaptation").
Proof.
  destruct (X12_legend_explains_map Sample.pune_gdf "Adaptation") as [Hentry _].
  - by_eval.
  - apply (Hentry Sample.pune "Highly Suitable (3)").
    + apply list_elem_of_here.
    + vm_compute. reflexivity.
    + discriminate.
Defined.

(** X18 on the scenario's table: one line, for the adaptation. *)
Lemma X18_witness :
  ∃ shown,
    sublist shown categories ∧
    page (district_details Sample.pune_gdf "Pune")
    = st_subheader "Details for Pune"
      :: ((λ '(category, display_name),
             st_write ("**" +:+ display_name +:+ ":** "
                       +:+ str (cell category Sample.pune)))
          <$> shown) ∧
    district_details Sample.three_gdf "Pune"
    = district_details Sample.pune_gdf "Pune".
Proof.
  destruct (X18_detail_lines_in_category_order Sample.pune_gdf
              "Pune" Sample.pune [])
    as [(shown & Hsub & Hpage & _) Hfirst].
  - discriminate.
  - reflexivity.
  - exists shown. split_and!; [exact Hsub|exact Hpage|].
    apply (Hfirst Sample.three_gdf (tail (rows Sample.three_gdf)));
      reflexivity.
Defined.

(** X19 on the scenario's table, with a library whose bounds fail. *)
Lemma X19_witness :
  let env := Sample.env ["Solar_Suitability_layer.shp"]
               ["Solar_Suitability_layer.shp"] Sample.pune_gdf in
  let choice := {| state_choice := 1; district_choice := 1; category_choice := 0 |} in
  head (page (@script _ Sample.no_bounds env choice))
  = Some (st_success "Successfully loaded shapefile with 1 features").
Proof.
  intros env choice.
  destruct (@X19_success_notice_first _ Sample.no_bounds env choice Sample.pune_gdf)
    as [more ->].
  - reflexivity.
  - reflexivity.
Defined.
